(** * Leave-management utilities: working-day count and request validation

    A shallow embedding of [LeaveManagementUtils.calculate_leave_duration]
    and [LeaveManagementUtils.validate_leave_request] (utils.py), with the
    part of the Python run-time they depend on: exceptions, the module's
    global namespace, the system clock and [datetime.date].

    Further on: [validate_employee_data] and [add_employee] (utils.py), the
    submit branches of the "Add Employee" and "Apply Leave" forms and the
    employee drop-down (app.py), with [str.strip] and [dict] assignment. *)

From Equations Require Import Equations.
From Stdlib Require Import ZArith List String Bool Lia.
Import ListNotations.
Local Open Scope string_scope.
Local Open Scope list_scope.
Local Open Scope Z_scope.

(** ** Python outcomes *)

(** The exceptions the two methods can meet. [NameError] carries the name
    that did not resolve; [OverflowError] is what [date.__add__] raises
    when the sum leaves [date.min .. date.max]. *)
Inductive exn : Type :=
| NameError (name : string)
| OverflowError.

(** A call either returns a value or raises. *)
Inductive outcome (A : Type) : Type :=
| Return (a : A)
| Raise (e : exn).
Arguments Return {A} a.
Arguments Raise {A} e.

Definition bind {A B : Type} (o : outcome A) (k : A -> outcome B) : outcome B :=
  match o with
  | Return a => k a
  | Raise e => Raise e
  end.

Notation "x <- c ;; k" := (bind c (fun x => k))
  (at level 61, c at next level, right associativity).

(** [raises o]: the call ended in an exception. *)
Definition raises {A : Type} (o : outcome A) : Prop := exists e, o = Raise e.

(** ** The module namespace *)

(** The global names of a module, each bound by its [import] or [class]
    statement to the object of that name. A function body resolves a free
    name in this table when the line that mentions it runs; the built-in
    names, searched next, hold neither [date] nor [timedelta]. *)
Definition namespace : Type := list string.

Definition bound (g : namespace) (name : string) : bool :=
  existsb (String.eqb name) g.

(** Resolving a global name: [NameError] when the module does not bind it. *)
Definition resolve (g : namespace) (name : string) : outcome unit :=
  if bound g name then Return tt else Raise (NameError name).

(** The names utils.py binds (lines 1-6, 9 and 112):
    [import requests], [import streamlit as st], [import os],
    [from typing import Dict, Any, Optional, List],
    [from datetime import datetime, date],
    [from dotenv import load_dotenv], and the two classes. *)
Definition utils_globals : namespace :=
  [ "requests"; "st"; "os";
    "Dict"; "Any"; "Optional"; "List";
    "datetime"; "date";
    "load_dotenv";
    "LeaveManagementAPI"; "LeaveManagementUtils" ].

(** The same module with [timedelta] added to the [datetime] import. *)
Definition utils_globals_with_timedelta : namespace :=
  "timedelta" :: utils_globals.

(** ** [datetime.date] *)

(** A [date] is represented by its proleptic Gregorian ordinal
    ([date.toordinal()]): 0001-01-01 is day 1. Comparison of dates is
    comparison of ordinals. *)
Definition date : Type := Z.

(** [date.min.toordinal()] and [date.max.toordinal()] (9999-12-31). *)
Definition MINORDINAL : Z := 1.
Definition MAXORDINAL : Z := 3652059.

Definition is_date (d : date) : Prop := MINORDINAL <= d <= MAXORDINAL.

Definition is_leap (y : Z) : bool :=
  (y mod 4 =? 0) && (negb (y mod 100 =? 0) || (y mod 400 =? 0)).

(** Days before January 1st of year [y]. *)
Definition days_before_year (y : Z) : Z :=
  let y' := y - 1 in y' * 365 + y' / 4 - y' / 100 + y' / 400.

Definition days_in_month (y m : Z) : Z :=
  if m =? 2 then (if is_leap y then 29 else 28)
  else if (m =? 4) || (m =? 6) || (m =? 9) || (m =? 11) then 30
  else 31.

(** Days of year [y] before the first day of month [m]. *)
Definition days_before_month (y m : Z) : Z :=
  fold_right Z.add 0
    (map (fun i => days_in_month y (Z.of_nat i)) (seq 1 (Z.to_nat (m - 1)))).

(** [date(y, m, d).toordinal()]. *)
Definition ymd (y m d : Z) : date :=
  days_before_year y + days_before_month y m + d.

(** [date.weekday()]: Monday is 0 and Sunday is 6. *)
Definition weekday (d : date) : Z := (d + 6) mod 7.

(** [d + timedelta(days=n)]: fails outside [date.min .. date.max]. *)
Definition date_add (d : date) (n : Z) : outcome date :=
  if (MINORDINAL <=? d + n) && (d + n <=? MAXORDINAL)
  then Return (d + n)
  else Raise OverflowError.

(** ** [calculate_leave_duration] (utils.py, lines 124-132) *)

(** A value together with the equation that says where it came from. *)
Definition inspect {A : Type} (x : A) : {y : A | x = y} := exist _ x eq_refl.

(** The [while current <= end_date] loop, with the two locals [days] and
    [current] as arguments. One iteration: count the day when its weekday
    is below 5, then evaluate [current + timedelta(days=1)], which first
    resolves the global name [timedelta]. The loop is total: the distance
    from [current] to [end_date] shrinks at each turn. *)
Equations? while_loop (g : namespace) (end_date : date) (days : Z) (current : date)
  : outcome Z by wf (Z.to_nat (end_date + 1 - current)) lt :=
while_loop g end_date days current with Z_le_gt_dec current end_date := {
  | right _ => Return days
  | left Hle with resolve g "timedelta" := {
    | Raise e => Raise e
    | Return _ with inspect (date_add current 1) := {
      | exist _ (Raise e) _ => Raise e
      | exist _ (Return next) Hnext =>
          while_loop g end_date
            (if weekday current <? 5 then days + 1 else days) next } } }.
Proof.
  unfold date_add in Hnext.
  destruct ((MINORDINAL <=? current + 1) && (current + 1 <=? MAXORDINAL));
    inversion Hnext; lia.
Qed.

(** [days = 0; current = start_date], the loop, [return days]. *)
Definition calculate_leave_duration (g : namespace) (start_date end_date : date)
  : outcome Z :=
  while_loop g end_date 0 start_date.

(** ** [validate_leave_request] (utils.py, lines 159-185) *)

(** The dictionary the method returns. *)
Record ValidationResult : Type := {
  valid : bool;
  errors : list string;
  working_days : Z
}.

(** The list literal of line 172. *)
Definition leave_types : list string :=
  ["annual"; "sick"; "emergency"; "maternity"; "paternity"].

(** [x in xs] on a list of strings. *)
Definition py_in (x : string) (xs : list string) : bool :=
  existsb (String.eqb x) xs.

(** [if cond: errors.append(msg)]. *)
Definition append_if (cond : bool) (msg : string) (errors : list string)
  : list string :=
  if cond then errors ++ [msg] else errors.

Definition msg_order : string := "Start date cannot be after end date".
Definition msg_past : string := "Cannot apply for leave on past dates".
Definition msg_type : string := "Invalid leave type".
Definition msg_none : string := "Leave duration must include working days".
Definition msg_long : string := "Leave duration cannot exceed 30 working days".

(** The method body, statement by statement. [today] is the value the
    system clock gives to [date.today()]; the call resolves the global
    name [date] first. The method has no parameter for the current day. *)
Definition validate_leave_request (g : namespace) (today : date)
    (start_date end_date : date) (leave_type : string)
  : outcome ValidationResult :=
  let errors := [] in
  let errors := append_if (start_date >? end_date) msg_order errors in
  _ <- resolve g "date" ;;
  let errors := append_if (start_date <? today) msg_past errors in
  let errors := append_if (negb (py_in leave_type leave_types)) msg_type errors in
  working_days <- calculate_leave_duration g start_date end_date ;;
  let errors :=
    if working_days =? 0 then errors ++ [msg_none]
    else if working_days >? 30 then errors ++ [msg_long]
    else errors in
  Return {| valid := Nat.eqb (List.length errors) 0;
            errors := errors;
            working_days := working_days |}.

(** ** The working-day count in the words of the specification *)

(** Monday through Friday. *)
Definition is_working_day (d : date) : bool :=
  (0 <=? weekday d) && (weekday d <=? 4).

(** The calendar days from [s] to [e], both included. *)
Definition calendar_days (s e : date) : list date :=
  map (fun i => s + Z.of_nat i) (seq 0 (Z.to_nat (e + 1 - s))).

(** How many of them are working days. *)
Definition spec_workingDays (s e : date) : Z :=
  Z.of_nat (List.length (filter is_working_day (calendar_days s e))).

(** The messages of the violated rules, in rule order, for a request whose
    working-day count is [wd]. *)
Definition spec_errors (today s e : date) (leave_type : string) (wd : Z)
  : list string :=
  (if s <=? e then [] else [msg_order]) ++
  (if today <=? s then [] else [msg_past]) ++
  (if py_in leave_type leave_types then [] else [msg_type]) ++
  (if wd =? 0 then [msg_none] else if 30 <? wd then [msg_long] else []).

(** ** Sample dates *)

(** 2025-01-06 is a Monday. *)
Definition mon_2025_01_06 : date := ymd 2025 1 6.
Definition fri_2025_01_10 : date := ymd 2025 1 10.
Definition sat_2025_01_11 : date := ymd 2025 1 11.
Definition sun_2025_01_12 : date := ymd 2025 1 12.
Definition sun_2025_01_05 : date := ymd 2025 1 5.
Definition fri_2025_02_21 : date := ymd 2025 2 21.

(** * The balance reconciler of the specification *)

(** The repository holds no reconciler: app.py fetches the balances from the
    remote service ([/employees/<id>/balance]) and shows them. The component
    is written down here from sections 3, 4.1 and 4.3 of the specification. *)
Module BalanceReconciler.

(** Modelled from the spec: the error of the duration calculator (section 7);
    no such error exists in the source. *)
Inductive failure : Type := InvalidRangeError.

(** Modelled from the spec: a computation that may fail with that error. *)
Inductive result (A : Type) : Type :=
| Ok (a : A)
| Err (f : failure).
Arguments Ok {A} a.
Arguments Err {A} f.

(** Modelled from the spec: the closed set of leave types (section 3), which
    the source only has as a list of strings. *)
Inductive LeaveType : Type := Annual | Sick | Emergency | Maternity | Paternity.

Definition LeaveType_eqb (a b : LeaveType) : bool :=
  match a, b with
  | Annual, Annual | Sick, Sick | Emergency, Emergency
  | Maternity, Maternity | Paternity, Paternity => true
  | _, _ => false
  end.

(** Modelled from the spec: the request status (section 3). *)
Inductive Status : Type := Pending | Approved | Rejected.

(** Modelled from the spec: [DateRange] (section 3); it may be inverted. *)
Record DateRange : Type := { range_start : date; range_end : date }.

(** Modelled from the spec: [LeaveRequest] (section 3), owned by the remote
    service. *)
Record LeaveRequest : Type := {
  employeeId : Z;
  leaveType : LeaveType;
  range : DateRange;
  status : Status
}.

(** Modelled from the spec: [BalanceSnapshot] (section 3) with its derived
    figure [available]. *)
Record BalanceSnapshot : Type := {
  total : Z;
  used : Z;
  pending : Z;
  available : Z
}.

(** Modelled from the spec: the allotment argument of [reconcile]. *)
Record Allotment : Type := { annual : Z; sick : Z }.

(** Modelled from the spec: the pair of snapshots [reconcile] returns. *)
Record Balances : Type := {
  annual_snapshot : BalanceSnapshot;
  sick_snapshot : BalanceSnapshot
}.

(** Modelled from the spec: [DurationCalculator.workingDays] (section 4.1),
    with the holidays of the caller and the failure on an inverted range
    that the source method does not have. *)
Definition workingDays (r : DateRange) (holidays : list date) : result Z :=
  if range_start r >? range_end r then Err InvalidRangeError
  else Ok (Z.of_nat (List.length
             (filter (fun d => is_working_day d && negb (existsb (Z.eqb d) holidays))
                     (calendar_days (range_start r) (range_end r))))).

(** Modelled from the spec: the days of a range that fall within [year]
    (the apportionment of section 4.3). *)
Definition within_year (year : Z) (r : DateRange) : DateRange :=
  {| range_start := Z.max (range_start r) (ymd year 1 1);
     range_end := Z.min (range_end r) (ymd year 12 31) |}.

(** Modelled from the spec: a range falls within [year] when one of its days
    does. *)
Definition falls_within (year : Z) (r : DateRange) : bool :=
  range_start (within_year year r) <=? range_end (within_year year r).

(** Modelled from the spec: the filter of section 4.3. *)
Definition matches (year : Z) (lt : LeaveType) (q : LeaveRequest) : bool :=
  falls_within year (range q) && LeaveType_eqb (leaveType q) lt.

(** Modelled from the spec: the sums [used] and [pending] over the matching
    requests; a rejected request adds nothing. *)
Fixpoint tally (year : Z) (qs : list LeaveRequest) (u p : Z) : result (Z * Z) :=
  match qs with
  | [] => Ok (u, p)
  | q :: rest =>
      match workingDays (within_year year (range q)) [] with
      | Err f => Err f
      | Ok d =>
          match status q with
          | Approved => tally year rest (u + d) p
          | Pending => tally year rest u (p + d)
          | Rejected => tally year rest u p
          end
      end
  end.

(** Modelled from the spec: the snapshot of one leave type. *)
Definition snapshot (year : Z) (lt : LeaveType) (allotted : Z)
    (requests : list LeaveRequest) : result BalanceSnapshot :=
  match tally year (filter (matches year lt) requests) 0 0 with
  | Err f => Err f
  | Ok (u, p) =>
      Ok {| total := allotted; used := u; pending := p;
            available := allotted - u - p |}
  end.

(** Modelled from the spec: [BalanceReconciler.reconcile] (section 4.3). *)
Definition reconcile (allotment : Allotment) (requestsForYear : list LeaveRequest)
    (year : Z) : result Balances :=
  match snapshot year Annual (annual allotment) requestsForYear with
  | Err f => Err f
  | Ok a =>
      match snapshot year Sick (sick allotment) requestsForYear with
      | Err f => Err f
      | Ok s => Ok {| annual_snapshot := a; sick_snapshot := s |}
      end
  end.

(** What the claim asks of a snapshot. *)
Definition unclamped (allotted : Z) (b : BalanceSnapshot) : Prop :=
  total b = allotted /\
  available b = total b - used b - pending b /\
  (used b + pending b > total b -> available b < 0).

(** Two annual requests of 2025 against an allotment of 20: five approved
    days (2025-01-06..10) and three pending ones (2025-01-13..15). *)
Definition approved_week : LeaveRequest :=
  {| employeeId := 1; leaveType := Annual;
     range := {| range_start := ymd 2025 1 6; range_end := ymd 2025 1 10 |};
     status := Approved |}.
Definition pending_three : LeaveRequest :=
  {| employeeId := 1; leaveType := Annual;
     range := {| range_start := ymd 2025 1 13; range_end := ymd 2025 1 15 |};
     status := Pending |}.

End BalanceReconciler.

(** * The employee form *)

(** ** Python [str] as code points *)

(** Where the length and the characters of a [str] matter it is the list of
    its code points. Literals that are only shown or compared stay
    [string]s. *)
Definition pystr : Type := list Z.

(** [str.isspace] on one character: the white-space table of CPython
    (U+0009..000D, U+001C..0020, U+0085, U+00A0, U+1680, U+2000..200A,
    U+2028, U+2029, U+202F, U+205F, U+3000). *)
Definition py_isspace (c : Z) : bool :=
  ((9 <=? c) && (c <=? 13)) || ((28 <=? c) && (c <=? 32)) ||
  (c =? 133) || (c =? 160) || (c =? 5760) ||
  ((8192 <=? c) && (c <=? 8202)) ||
  (c =? 8232) || (c =? 8233) || (c =? 8239) || (c =? 8287) || (c =? 12288).

(** [s.lstrip()], [s.rstrip()] and [s.strip()] without argument. *)
Fixpoint lstrip (s : pystr) : pystr :=
  match s with
  | [] => []
  | c :: rest => if py_isspace c then lstrip rest else s
  end.

Definition rstrip (s : pystr) : pystr := rev (lstrip (rev s)).

Definition strip (s : pystr) : pystr := rstrip (lstrip s).

(** [len(s)]. *)
Definition py_len (s : pystr) : Z := Z.of_nat (List.length s).

(** [not s]: a [str] is false when it is empty. *)
Definition py_not (s : pystr) : bool :=
  match s with
  | [] => true
  | _ :: _ => false
  end.

(** [c in s] for a one-character [c]. *)
Definition py_contains (c : Z) (s : pystr) : bool := existsb (Z.eqb c) s.

(** ['@'] and ['.']. *)
Definition at_sign : Z := 64.
Definition full_stop : Z := 46.

(** ** [validate_employee_data] (utils.py, lines 134-157) *)

(** The dictionary the method returns. *)
Record EmployeeValidation : Type := {
  emp_valid : bool;
  emp_errors : list string
}.

Definition msg_name : string := "Name must be at least 2 characters long".
Definition msg_email : string := "Invalid email format".
Definition msg_department : string := "Department must be at least 2 characters long".
Definition msg_joining : string := "Joining date cannot be in the future".

(** The three tests on the text fields, as written in the [if]s. *)
Definition too_short (s : pystr) : bool :=
  py_not s || (py_len (strip s) <? 2).

Definition bad_email (email : pystr) : bool :=
  py_not email || negb (py_contains at_sign email) ||
  negb (py_contains full_stop email).

(** The method body. [date.today()] in the fourth test resolves the global
    name [date] and reads the clock. *)
Definition validate_employee_data (g : namespace) (today : date)
    (name email department : pystr) (joining_date : date)
  : outcome EmployeeValidation :=
  let errors := [] in
  let errors := append_if (too_short name) msg_name errors in
  let errors := append_if (bad_email email) msg_email errors in
  let errors := append_if (too_short department) msg_department errors in
  _ <- resolve g "date" ;;
  let errors := append_if (joining_date >? today) msg_joining errors in
  Return {| emp_valid := Nat.eqb (List.length errors) 0;
            emp_errors := errors |}.

(** ** [LeaveManagementAPI.add_employee] (utils.py, lines 36-44) and the
    submit branch of [show_employees] (app.py, lines 197-228) *)

(** The JSON body of the POST. *)
Record employee_data : Type := {
  data_name : pystr;
  data_email : pystr;
  data_department : pystr;
  data_joining_date : pystr
}.

(** What the pages read of a reply that is a JSON object: whether
    [get("success")] is true, and the text of [get("error")] and of
    [get("days_requested")] when the key is there. *)
Record api_reply : Type := {
  success : bool;
  error : option string;
  days_requested : option string
}.

(** What [_make_request] and [make_api_call] hand back: the decoded body
    ([response.json()]) as it is, or their own error object. The body is a
    JSON object or some other JSON value (a list, a string, a number,
    [null]), which has no [get]. *)
Inductive json_reply : Type :=
| json_object (fields : api_reply)
| json_other.

(** The exception that ends a submit branch early: one that came out of
    utils.py, or the [AttributeError] of [.get] on a reply that is not an
    object. *)
Inductive page_error : Type :=
| raised_in_utils (e : exn)
| AttributeError.

(** What a submit branch does, in order: Streamlit calls, the HTTP request
    with its JSON body, the pause. *)
Inductive event (D : Type) : Type :=
| st_error (msg : string)
| st_success (msg : string)
| http_post (endpoint : string) (data : D)
| time_sleep (seconds : Z)
| st_rerun.
Arguments st_error {D} msg.
Arguments st_success {D} msg.
Arguments http_post {D} endpoint data.
Arguments time_sleep {D} seconds.
Arguments st_rerun {D}.

(** A run of a submit branch: what it did, in order, and the error that
    ended it, if one did. [st.rerun()], which leaves the script on purpose,
    is an event and not an error. *)
Definition run (D : Type) : Type := (list (event D) * option page_error)%type.

Section EmployeeForm.

(** [str.lower] and [date.strftime('%Y-%m-%d')] of the Python library, and
    the reply of the remote service to a POST on [/employees]. *)
Variable lower : pystr -> pystr.
Variable strftime_Y_m_d : date -> pystr.
Variable service : employee_data -> json_reply.

(** [add_employee]: build the body, send it, hand back the reply. *)
Definition add_employee (name email department : pystr) (joining_date : date)
  : list (event employee_data) * json_reply :=
  let data := {| data_name := strip name;
                 data_email := lower (strip email);
                 data_department := strip department;
                 data_joining_date := strftime_Y_m_d joining_date |} in
  ([http_post "/employees" data], service data).

(** [result.get('error', 'Unknown error')]. *)
Definition error_text (result : api_reply) : string :=
  match error result with
  | Some text => text
  | None => "Unknown error"
  end.

(** The body of [if submitted:] in the "Add Employee" tab. The validator
    runs in the module utils, whose namespace is [g]; an exception it raises
    leaves the branch. [result.get("success")] is the first use of the
    reply. *)
Definition add_employee_submitted (g : namespace) (today : date)
    (name email department : pystr) (joining_date : date)
  : run employee_data :=
  if py_not name || py_not email || py_not department
  then ([st_error "Please fill all required fields"], None)
  else
    match validate_employee_data g today name email department joining_date with
    | Raise e => ([], Some (raised_in_utils e))
    | Return validation =>
        if negb (emp_valid validation)
        then (map st_error (emp_errors validation), None)
        else
          let (sent, result) := add_employee name email department joining_date in
          match result with
          | json_other => (sent, Some AttributeError)
          | json_object fields =>
              if success fields
              then (sent ++ [st_success "Employee added successfully!";
                             time_sleep 1; st_rerun], None)
              else (sent ++ [st_error (String.append "Failed to add employee: "
                                                     (error_text fields))], None)
          end
    end.

End EmployeeForm.

(** * The leave form *)

(** ** The employee drop-down (app.py, lines 248, 325 and 412) *)

Fixpoint pystr_eqb (a b : pystr) : bool :=
  match a, b with
  | [], [] => true
  | x :: a', y :: b' => (x =? y) && pystr_eqb a' b'
  | _, _ => false
  end.

(** A [dict] with [str] keys: its items in insertion order, no key twice. *)
Definition pydict (V : Type) : Type := list (pystr * V).

(** [d[k] = v]: a key already there keeps its place and takes the new
    value; a new key goes to the end. *)
Fixpoint dict_set {V : Type} (d : pydict V) (k : pystr) (v : V) : pydict V :=
  match d with
  | [] => [(k, v)]
  | (k', v') :: rest =>
      if pystr_eqb k k' then (k', v) :: rest
      else (k', v') :: dict_set rest k v
  end.

(** [d[k]], [None] standing for [KeyError]. *)
Fixpoint dict_get {V : Type} (d : pydict V) (k : pystr) : option V :=
  match d with
  | [] => None
  | (k', v') :: rest => if pystr_eqb k k' then Some v' else dict_get rest k
  end.

(** [list(d.keys())]. *)
Definition dict_keys {V : Type} (d : pydict V) : list pystr := map fst d.

(** The fields of an employee the drop-down reads. *)
Record employee : Type := {
  emp_id : Z;
  emp_name : pystr;
  emp_email : pystr
}.

(** [f"{emp['name']} ({emp['email']})"]. *)
Definition option_label (emp : employee) : pystr :=
  emp_name emp ++ [32; 40] ++ emp_email emp ++ [41].

(** The loop of the comprehension: one assignment for each employee, in
    list order, onto the dictionary [d]. *)
Definition fill (d : pydict Z) (employees : list employee) : pydict Z :=
  fold_left (fun d emp => dict_set d (option_label emp) (emp_id emp)) employees d.

(** [{f"{emp['name']} ({emp['email']})": emp['id'] for emp in employees}]. *)
Definition employee_options (employees : list employee) : pydict Z :=
  fill [] employees.

(** ** The submit branch of [show_apply_leave] (app.py, lines 266-290) *)

(** The JSON body of the POST. *)
Record leave_data : Type := {
  data_employee_id : Z;
  data_leave_type : string;
  data_start_date : pystr;
  data_end_date : pystr;
  data_reason : pystr
}.

Definition msg_submitted : string :=
  "✅ Leave request submitted successfully! Days requested: ".
Definition msg_failed : string := "❌ Failed to submit leave request: ".

Section LeaveForm.

(** [date.strftime('%Y-%m-%d')] of the Python library and the reply of the
    remote service to a POST on [/leave-requests]. *)
Variable strftime_Y_m_d : date -> pystr.
Variable service : leave_data -> json_reply.

(** [response.get('days_requested', 'N/A')]. *)
Definition days_text (response : api_reply) : string :=
  match days_requested response with
  | Some text => text
  | None => "N/A"
  end.

(** The body of [if submitted:] from the comment [# Validation] on, with the
    employee id already looked up. [today] is what [date.today()] gives;
    app.py imports [date]. [response.get("success")] is the first use of
    the reply. *)
Definition apply_leave_submitted (today : date) (employee_id : Z)
    (leave_type : string) (start_date end_date : date) (reason : pystr)
  : run leave_data :=
  if start_date >? end_date then ([st_error msg_order], None)
  else if start_date <? today then ([st_error msg_past], None)
  else
    let data := {| data_employee_id := employee_id;
                   data_leave_type := leave_type;
                   data_start_date := strftime_Y_m_d start_date;
                   data_end_date := strftime_Y_m_d end_date;
                   data_reason := strip reason |} in
    match service data with
    | json_other => ([http_post "/leave-requests" data], Some AttributeError)
    | json_object response =>
        if success response
        then ([http_post "/leave-requests" data;
               st_success (String.append msg_submitted (days_text response));
               st_rerun], None)
        else ([http_post "/leave-requests" data;
               st_error (String.append msg_failed (error_text response))], None)
    end.

End LeaveForm.

(** ** Sample form input *)

(** "Ada Lovelace", "ada@example.org" and "HR" as code points. *)
Definition ada_name : pystr := [65; 100; 97; 32; 76; 111; 118; 101; 108; 97; 99; 101].
Definition ada_email : pystr :=
  [97; 100; 97; 64; 101; 120; 97; 109; 112; 108; 101; 46; 111; 114; 103].
Definition hr_department : pystr := [72; 82].

(** * Properties *)

(** ** The loop *)

Lemma while_loop_exit (g : namespace) (end_date : date) (days : Z) (current : date) :
  end_date < current -> while_loop g end_date days current = Return days.
Proof.
  intros H. simp while_loop.
  destruct (Z_le_gt_dec current end_date) as [Hle | Hgt]; [lia | reflexivity].
Qed.

Lemma while_loop_unbound (g : namespace) (end_date : date) (days : Z) (current : date) :
  bound g "timedelta" = false -> current <= end_date ->
  while_loop g end_date days current = Raise (NameError "timedelta").
Proof.
  intros Hg H. simp while_loop.
  destruct (Z_le_gt_dec current end_date) as [Hle | Hgt]; [| lia].
  cbn. unfold resolve. rewrite Hg. reflexivity.
Qed.

Lemma while_loop_step (g : namespace) (end_date : date) (days : Z) (current : date) :
  bound g "timedelta" = true -> current <= end_date ->
  MINORDINAL <= current + 1 <= MAXORDINAL ->
  while_loop g end_date days current =
  while_loop g end_date (if weekday current <? 5 then days + 1 else days) (current + 1).
Proof.
  intros Hg H Hr. rewrite while_loop_equation_1.
  destruct (Z_le_gt_dec current end_date) as [Hle | Hgt]; [| lia].
  cbn. unfold resolve. rewrite Hg. cbn.
  unfold date_add.
  assert (Hb : (MINORDINAL <=? current + 1) && (current + 1 <=? MAXORDINAL) = true)
    by (apply andb_true_iff; split; apply Z.leb_le; lia).
  rewrite Hb. reflexivity.
Qed.

Lemma while_loop_last_day (g : namespace) (days : Z) :
  bound g "timedelta" = true ->
  while_loop g MAXORDINAL days MAXORDINAL = Raise OverflowError.
Proof.
  intros Hg. rewrite while_loop_equation_1.
  destruct (Z_le_gt_dec MAXORDINAL MAXORDINAL) as [Hle | Hgt]; [| lia].
  cbn. unfold resolve. rewrite Hg. reflexivity.
Qed.

(** ** The specification's count *)

Lemma weekday_range (d : date) : 0 <= weekday d < 7.
Proof. unfold weekday. apply Z.mod_pos_bound. lia. Qed.

Lemma is_working_day_weekday (d : date) : is_working_day d = (weekday d <? 5).
Proof.
  unfold is_working_day. pose proof (weekday_range d) as Hw.
  destruct (Z.leb_spec 0 (weekday d)); [| lia].
  destruct (Z.leb_spec (weekday d) 4); destruct (Z.ltb_spec (weekday d) 5);
    try reflexivity; lia.
Qed.

Lemma calendar_days_empty (s e : date) : e < s -> calendar_days s e = [].
Proof.
  intros H. unfold calendar_days.
  replace (Z.to_nat (e + 1 - s)) with O by lia. reflexivity.
Qed.

Lemma calendar_days_first (s e : date) :
  s <= e -> calendar_days s e = s :: calendar_days (s + 1) e.
Proof.
  intros H. unfold calendar_days.
  replace (Z.to_nat (e + 1 - s)) with (S (Z.to_nat (e + 1 - (s + 1)))) by lia.
  cbn [seq map]. rewrite Z.add_0_r. rewrite <- seq_shift, map_map.
  apply (f_equal (cons s)). apply map_ext. intros i. lia.
Qed.

Lemma calendar_days_last (s e : date) :
  s <= e + 1 -> calendar_days s (e + 1) = calendar_days s e ++ [e + 1].
Proof.
  intros H. unfold calendar_days.
  replace (Z.to_nat (e + 1 + 1 - s)) with (S (Z.to_nat (e + 1 - s))) by lia.
  rewrite seq_S, map_app. cbn [map Nat.add].
  replace (s + Z.of_nat (Z.to_nat (e + 1 - s))) with (e + 1) by lia.
  reflexivity.
Qed.

Lemma spec_workingDays_empty (s e : date) : e < s -> spec_workingDays s e = 0.
Proof.
  intros H. unfold spec_workingDays. rewrite calendar_days_empty by exact H.
  reflexivity.
Qed.

Lemma spec_workingDays_first (s e : date) :
  s <= e ->
  spec_workingDays s e =
  (if weekday s <? 5 then 1 else 0) + spec_workingDays (s + 1) e.
Proof.
  intros H. unfold spec_workingDays. rewrite calendar_days_first by exact H.
  cbn [filter]. rewrite is_working_day_weekday.
  destruct (weekday s <? 5); cbn [List.length]; lia.
Qed.

Lemma spec_workingDays_last (s e : date) :
  s <= e + 1 ->
  spec_workingDays s (e + 1) =
  spec_workingDays s e + (if weekday (e + 1) <? 5 then 1 else 0).
Proof.
  intros H. unfold spec_workingDays. rewrite calendar_days_last by exact H.
  rewrite filter_app, length_app. cbn [filter]. rewrite is_working_day_weekday.
  destruct (weekday (e + 1) <? 5); cbn [List.length]; lia.
Qed.

Lemma spec_workingDays_nonneg (s e : date) : 0 <= spec_workingDays s e.
Proof. unfold spec_workingDays. lia. Qed.

(** ** The loop against the count, in a module that binds [timedelta] *)

Lemma while_loop_counts (g : namespace) (end_date : date) :
  bound g "timedelta" = true -> end_date < MAXORDINAL ->
  forall (n : nat) (days : Z) (current : date),
    Z.to_nat (end_date + 1 - current) = n -> 0 <= current ->
    while_loop g end_date days current =
    Return (days + spec_workingDays current end_date).
Proof.
  intros Hg Hmax n. induction n as [| n IH]; intros days current Hn Hc.
  - rewrite while_loop_exit by lia. rewrite spec_workingDays_empty by lia.
    f_equal. lia.
  - rewrite while_loop_step by (unfold MINORDINAL; lia || assumption).
    rewrite IH by lia. rewrite (spec_workingDays_first current) by lia.
    f_equal. destruct (weekday current <? 5); lia.
Qed.

Lemma while_loop_overflow (g : namespace) :
  bound g "timedelta" = true ->
  forall (n : nat) (days : Z) (current : date),
    Z.to_nat (MAXORDINAL - current) = n -> 0 <= current <= MAXORDINAL ->
    while_loop g MAXORDINAL days current = Raise OverflowError.
Proof.
  intros Hg n. induction n as [| n IH]; intros days current Hn Hc.
  - replace current with MAXORDINAL by lia. apply while_loop_last_day, Hg.
  - rewrite while_loop_step by (unfold MINORDINAL; lia || assumption).
    apply IH; lia.
Qed.

(** ** What utils.py binds *)

Lemma utils_binds_date : resolve utils_globals "date" = Return tt.
Proof. reflexivity. Qed.

Lemma utils_lacks_timedelta : bound utils_globals "timedelta" = false.
Proof. reflexivity. Qed.

Lemma with_timedelta_bound : bound utils_globals_with_timedelta "timedelta" = true.
Proof. reflexivity. Qed.

(** ** [calculate_leave_duration] *)

(** As soon as the range holds one day, the first turn of the loop stops at
    the unbound name. *)
Lemma calculate_leave_duration_unbound (g : namespace) (start_date end_date : date) :
  bound g "timedelta" = false -> start_date <= end_date ->
  calculate_leave_duration g start_date end_date = Raise (NameError "timedelta").
Proof. intros Hg H. apply while_loop_unbound; assumption. Qed.

(** With [timedelta] bound and the end before [date.max], the method
    returns the specification's count, also on an empty range. *)
Lemma calculate_leave_duration_counts (g : namespace) (start_date end_date : date) :
  bound g "timedelta" = true -> 0 <= start_date -> end_date < MAXORDINAL ->
  calculate_leave_duration g start_date end_date =
  Return (spec_workingDays start_date end_date).
Proof.
  intros Hg Hs He. unfold calculate_leave_duration.
  rewrite (while_loop_counts g end_date Hg He _ 0 start_date eq_refl Hs).
  reflexivity.
Qed.

(** With [timedelta] bound, a range that ends on [date.max] cannot be
    counted: the step past the last day overflows. *)
Lemma calculate_leave_duration_date_max (g : namespace) (start_date : date) :
  bound g "timedelta" = true -> is_date start_date ->
  calculate_leave_duration g start_date MAXORDINAL = Raise OverflowError.
Proof.
  intros Hg [Hlo Hhi]. unfold calculate_leave_duration, MINORDINAL in *.
  apply (while_loop_overflow g Hg _ 0 start_date eq_refl). lia.
Qed.

(** With [timedelta] bound, one more day at the end never lowers the count. *)
Lemma calculate_leave_duration_monotone_when_bound
    (g : namespace) (start_date end_date : date) (a b : Z) :
  bound g "timedelta" = true -> 0 <= start_date -> start_date <= end_date ->
  end_date + 1 < MAXORDINAL ->
  calculate_leave_duration g start_date end_date = Return a ->
  calculate_leave_duration g start_date (end_date + 1) = Return b ->
  a <= b.
Proof.
  intros Hg Hs Hle He Ha Hb.
  rewrite calculate_leave_duration_counts in Ha by (assumption || lia).
  rewrite calculate_leave_duration_counts in Hb by (assumption || lia).
  inversion Ha; inversion Hb; subst.
  rewrite spec_workingDays_last by lia.
  destruct (weekday (end_date + 1) <? 5); lia.
Qed.

(** ** [validate_leave_request] *)

(** The result on an inverted range, in any module that binds [date]. *)
Lemma validate_leave_request_inverted
    (g : namespace) (today start_date end_date : date) (leave_type : string) :
  resolve g "date" = Return tt -> end_date < start_date ->
  validate_leave_request g today start_date end_date leave_type =
  Return {| valid := false;
            errors := spec_errors today start_date end_date leave_type 0;
            working_days := 0 |}.
Proof.
  intros Hd H. unfold validate_leave_request, calculate_leave_duration.
  rewrite Hd, while_loop_exit by exact H. cbn [bind Z.eqb].
  unfold spec_errors, append_if.
  destruct (Z.gtb_spec start_date end_date) as [_ | Hn]; [| lia].
  destruct (Z.leb_spec start_date end_date) as [Hn | _]; [lia |].
  rewrite Z.ltb_antisym.
  destruct (today <=? start_date), (py_in leave_type leave_types); reflexivity.
Qed.

(** Whatever the module binds, a returned result lists the messages of the
    violated rules in rule order, and [valid] says whether there are none. *)
Lemma validate_leave_request_errors
    (g : namespace) (today start_date end_date : date) (leave_type : string)
    (r : ValidationResult) :
  validate_leave_request g today start_date end_date leave_type = Return r ->
  calculate_leave_duration g start_date end_date = Return (working_days r) /\
  errors r = spec_errors today start_date end_date leave_type (working_days r) /\
  valid r = Nat.eqb (List.length (errors r)) 0.
Proof.
  unfold validate_leave_request, spec_errors.
  generalize (py_in leave_type leave_types). intros known H.
  destruct (resolve g "date") as [[] | ex]; [| discriminate H].
  cbn [bind] in H.
  destruct (calculate_leave_duration g start_date end_date) as [wd | ex];
    [| discriminate H].
  cbn [bind] in H. injection H as <-. cbn [working_days errors valid].
  split; [reflexivity |]. split; [| reflexivity].
  unfold append_if.
  rewrite Z.gtb_ltb, (Z.ltb_antisym start_date end_date), (Z.ltb_antisym today start_date).
  rewrite (Z.gtb_ltb wd 30).
  destruct (start_date <=? end_date), (today <=? start_date),
    known, (wd =? 0), (30 <? wd); reflexivity.
Qed.

(** In a module that binds both [date] and [timedelta], a request that ends
    before [date.max] gets its result: all four rules are reported. *)
Lemma validate_leave_request_when_bound
    (g : namespace) (today start_date end_date : date) (leave_type : string) :
  resolve g "date" = Return tt -> bound g "timedelta" = true ->
  0 <= start_date -> end_date < MAXORDINAL ->
  exists r,
    validate_leave_request g today start_date end_date leave_type = Return r /\
    working_days r = spec_workingDays start_date end_date /\
    errors r = spec_errors today start_date end_date leave_type
                 (spec_workingDays start_date end_date).
Proof.
  intros Hd Hg Hs He.
  destruct (validate_leave_request g today start_date end_date leave_type)
    as [r | ex] eqn:Hv.
  - exists r. split; [reflexivity |].
    apply validate_leave_request_errors in Hv as (Hwd & Herr & _).
    rewrite calculate_leave_duration_counts in Hwd by assumption.
    injection Hwd as Hwd. rewrite Herr, <- Hwd. split; reflexivity.
  - unfold validate_leave_request in Hv. rewrite Hd in Hv. cbn [bind] in Hv.
    rewrite calculate_leave_duration_counts in Hv by assumption.
    discriminate Hv.
Qed.

(** The examples of the specification, once [timedelta] is imported. *)
Example with_timedelta_mon_fri :
  calculate_leave_duration utils_globals_with_timedelta
    mon_2025_01_06 fri_2025_01_10 = Return 5.
Proof. reflexivity. Qed.

Example with_timedelta_sat_sun :
  calculate_leave_duration utils_globals_with_timedelta
    sat_2025_01_11 sun_2025_01_12 = Return 0.
Proof. reflexivity. Qed.

Example with_timedelta_35_days :
  validate_leave_request utils_globals_with_timedelta (ymd 2025 1 1)
    mon_2025_01_06 fri_2025_02_21 "annual" =
  Return {| valid := false; errors := [msg_long]; working_days := 35 |}.
Proof. reflexivity. Qed.

Example with_timedelta_past_and_type :
  validate_leave_request utils_globals_with_timedelta fri_2025_01_10
    mon_2025_01_06 (ymd 2025 1 7) "vacation" =
  Return {| valid := false; errors := [msg_past; msg_type]; working_days := 2 |}.
Proof. reflexivity. Qed.

(** * The claims *)

(** C1 (code defect). [validate_leave_request] does raise: on every request
    with [start_date <= end_date] the call to [calculate_leave_duration]
    enters the loop, reaches [timedelta], which utils.py never imports, and
    the [NameError] leaves [validate_leave_request] uncaught. No result
    dictionary is built. *)
Theorem validate_leave_request_raises_NameError
    (today start_date end_date : date) (leave_type : string) :
  start_date <= end_date ->
  validate_leave_request utils_globals today start_date end_date leave_type =
  Raise (NameError "timedelta").
Proof.
  intros H. unfold validate_leave_request.
  rewrite utils_binds_date. cbn [bind].
  rewrite calculate_leave_duration_unbound by (reflexivity || exact H).
  reflexivity.
Qed.

Lemma validate_leave_request_raises_NameError_witness :
  mon_2025_01_06 <= fri_2025_01_10 /\
  validate_leave_request utils_globals (ymd 2025 1 1)
    mon_2025_01_06 fri_2025_01_10 "annual" = Raise (NameError "timedelta").
Proof.
  split.
  - vm_compute. discriminate.
  - apply validate_leave_request_raises_NameError. vm_compute. discriminate.
Defined.

(** C2 (counterexample). With start 2025-01-10 and end 2025-01-05 the method
    does not fail: it returns the number 0. *)
Lemma calculate_leave_duration_inverted_counterexample :
  fri_2025_01_10 > sun_2025_01_05 /\
  calculate_leave_duration utils_globals fri_2025_01_10 sun_2025_01_05 = Return 0 /\
  ~ raises (calculate_leave_duration utils_globals fri_2025_01_10 sun_2025_01_05).
Proof.
  split; [reflexivity |]. split; [reflexivity |].
  intros [ex H]. vm_compute in H. discriminate H.
Qed.

(** C2 (amended). For every pair of dates with start after end,
    [calculate_leave_duration] produces the number 0; it does not fail, and
    no error for an invalid range exists in the module. *)
Theorem calculate_leave_duration_inverted_returns_zero
    (g : namespace) (start_date end_date : date) :
  start_date > end_date ->
  calculate_leave_duration g start_date end_date = Return 0.
Proof. intros H. apply while_loop_exit. lia. Qed.

Lemma calculate_leave_duration_inverted_returns_zero_witness :
  fri_2025_01_10 > sun_2025_01_05 /\
  calculate_leave_duration utils_globals fri_2025_01_10 sun_2025_01_05 = Return 0.
Proof.
  split.
  - reflexivity.
  - apply calculate_leave_duration_inverted_returns_zero. reflexivity.
Defined.

(** C3 (code defect). On 2025-01-10, a request for 2025-01-06..2025-01-07 of
    type "vacation" breaks rule 2 and rule 3, so the claim expects one result
    carrying both messages in that order; the method raises [NameError]
    instead and reports neither. *)
Theorem validate_leave_request_reports_nothing_on_ordered_range :
  spec_errors fri_2025_01_10 mon_2025_01_06 (ymd 2025 1 7) "vacation"
    (spec_workingDays mon_2025_01_06 (ymd 2025 1 7)) = [msg_past; msg_type] /\
  validate_leave_request utils_globals fri_2025_01_10
    mon_2025_01_06 (ymd 2025 1 7) "vacation" = Raise (NameError "timedelta").
Proof. split; reflexivity. Qed.

(** C4 (counterexample). The same arguments, 2025-01-10..2025-01-05 and
    "annual", validated on 2025-01-01 and on 2025-01-20: the second result
    has one more message. The method has no [asOf] parameter and takes the
    day from [date.today()]. *)
Lemma validate_leave_request_clock_counterexample :
  validate_leave_request utils_globals (ymd 2025 1 1)
    fri_2025_01_10 sun_2025_01_05 "annual" <>
  validate_leave_request utils_globals (ymd 2025 1 20)
    fri_2025_01_10 sun_2025_01_05 "annual".
Proof. vm_compute. discriminate. Qed.

(** C4 (amended). [validate_leave_request] reads the current day from the
    system clock. Two runs with the same arguments end the same way whenever
    the two clock readings agree on whether [start_date] is in the past, in
    particular when both runs happen on the same day. *)
Theorem validate_leave_request_deterministic_given_clock
    (g : namespace) (today1 today2 start_date end_date : date) (leave_type : string) :
  (start_date <? today1) = (start_date <? today2) ->
  validate_leave_request g today1 start_date end_date leave_type =
  validate_leave_request g today2 start_date end_date leave_type.
Proof. intros H. unfold validate_leave_request. rewrite H. reflexivity. Qed.

Lemma validate_leave_request_deterministic_given_clock_witness :
  (fri_2025_01_10 <? ymd 2025 1 1) = (fri_2025_01_10 <? ymd 2025 1 2) /\
  validate_leave_request utils_globals (ymd 2025 1 1)
    fri_2025_01_10 sun_2025_01_05 "annual" =
  validate_leave_request utils_globals (ymd 2025 1 2)
    fri_2025_01_10 sun_2025_01_05 "annual".
Proof.
  split.
  - reflexivity.
  - apply validate_leave_request_deterministic_given_clock. reflexivity.
Defined.

(** C5 (code defect). Monday 2025-01-06 to Friday 2025-01-10 holds 5 working
    days and Saturday 2025-01-11 to Sunday 2025-01-12 holds none, but
    [calculate_leave_duration] returns neither 5 nor 0: both calls raise
    [NameError] in the first turn of the loop. *)
Theorem calculate_leave_duration_no_count_on_ordered_range :
  spec_workingDays mon_2025_01_06 fri_2025_01_10 = 5 /\
  calculate_leave_duration utils_globals mon_2025_01_06 fri_2025_01_10 =
    Raise (NameError "timedelta") /\
  spec_workingDays sat_2025_01_11 sun_2025_01_12 = 0 /\
  calculate_leave_duration utils_globals sat_2025_01_11 sun_2025_01_12 =
    Raise (NameError "timedelta").
Proof. repeat split; reflexivity. Qed.

(** C6. Whenever [validate_leave_request] returns a result, its [valid]
    field is true exactly when its [errors] list is empty. *)
Theorem validate_leave_request_valid_iff_no_errors
    (g : namespace) (today start_date end_date : date) (leave_type : string)
    (r : ValidationResult) :
  validate_leave_request g today start_date end_date leave_type = Return r ->
  (valid r = true <-> errors r = []).
Proof.
  intros H. apply validate_leave_request_errors in H as (_ & _ & Hv).
  rewrite Hv. destruct (errors r) as [| msg rest]; cbn.
  - split; reflexivity.
  - split; discriminate.
Qed.

Lemma validate_leave_request_valid_iff_no_errors_witness :
  let r := {| valid := false;
              errors := [msg_order; msg_none];
              working_days := 0 |} in
  validate_leave_request utils_globals (ymd 2025 1 1)
    fri_2025_01_10 sun_2025_01_05 "annual" = Return r /\
  (valid r = true <-> errors r = []).
Proof.
  split.
  - reflexivity.
  - apply (validate_leave_request_valid_iff_no_errors utils_globals (ymd 2025 1 1)
             fri_2025_01_10 sun_2025_01_05 "annual").
    reflexivity.
Defined.

(** C7 (code defect). Monday 2025-01-06 to Friday 2025-02-21 holds 35
    working days, so the claim expects a result with the 30-day message and
    [working_days = 35]; whatever the day and the leave type, the method
    raises [NameError] instead. *)
Theorem validate_leave_request_no_result_on_35_days
    (today : date) (leave_type : string) :
  spec_workingDays mon_2025_01_06 fri_2025_02_21 = 35 /\
  validate_leave_request utils_globals today
    mon_2025_01_06 fri_2025_02_21 leave_type = Raise (NameError "timedelta").
Proof. split; reflexivity. Qed.

(** With utils.py as it is, the one-day range 2025-01-06 and its extension
    by one day give no two results to compare: both calls of
    [calculate_leave_duration] raise [NameError]. *)
Theorem calculate_leave_duration_no_result_to_compare :
  mon_2025_01_06 <= mon_2025_01_06 /\
  calculate_leave_duration utils_globals mon_2025_01_06 mon_2025_01_06 =
    Raise (NameError "timedelta") /\
  calculate_leave_duration utils_globals mon_2025_01_06 (mon_2025_01_06 + 1) =
    Raise (NameError "timedelta").
Proof. split; [vm_compute; discriminate |]. split; reflexivity. Qed.

(** C10. For every pair of dates with start after end, the loop returns its
    counter untouched, [calculate_leave_duration] returns 0 and raises
    nothing, and at the public interface [validate_leave_request] reports
    zero working days. *)
Theorem inverted_range_is_zero_working_days (start_date end_date : date) :
  start_date > end_date ->
  (forall days, while_loop utils_globals end_date days start_date = Return days) /\
  calculate_leave_duration utils_globals start_date end_date = Return 0 /\
  ~ raises (calculate_leave_duration utils_globals start_date end_date) /\
  (forall today leave_type, exists r,
     validate_leave_request utils_globals today start_date end_date leave_type
       = Return r /\ working_days r = 0).
Proof.
  intros H.
  assert (Hloop : forall days,
             while_loop utils_globals end_date days start_date = Return days)
    by (intros days; apply while_loop_exit; lia).
  split; [exact Hloop |]. split; [apply Hloop |]. split.
  - unfold calculate_leave_duration. rewrite Hloop. intros [ex Hex]. discriminate Hex.
  - intros today leave_type. eexists. split.
    + apply validate_leave_request_inverted; [reflexivity | lia].
    + reflexivity.
Qed.

Lemma inverted_range_is_zero_working_days_witness :
  fri_2025_01_10 > sun_2025_01_05 /\
  calculate_leave_duration utils_globals fri_2025_01_10 sun_2025_01_05 = Return 0 /\
  exists r,
    validate_leave_request utils_globals (ymd 2025 1 1)
      fri_2025_01_10 sun_2025_01_05 "annual" = Return r /\ working_days r = 0.
Proof.
  assert (H : fri_2025_01_10 > sun_2025_01_05) by reflexivity.
  split; [exact H |].
  destruct (inverted_range_is_zero_working_days _ _ H) as (_ & Hzero & _ & Hval).
  split; [exact Hzero | apply Hval].
Defined.

(** * The reconciler of the specification *)

Section Reconciler.
Import BalanceReconciler.

Lemma workingDays_within_year (year : Z) (r : DateRange) :
  falls_within year r = true ->
  exists d, workingDays (within_year year r) [] = Ok d /\ 0 <= d.
Proof.
  unfold falls_within, workingDays. intros H. apply Z.leb_le in H.
  destruct (Z.gtb_spec (range_start (within_year year r))
                       (range_end (within_year year r))) as [Hgt | _]; [lia |].
  eexists. split; [reflexivity | lia].
Qed.

Lemma tally_succeeds (year : Z) (qs : list LeaveRequest) :
  forallb (fun q => falls_within year (range q)) qs = true ->
  forall u p, exists u' p', tally year qs u p = Ok (u', p').
Proof.
  induction qs as [| q rest IH]; intros Hall u p; cbn [tally].
  - eauto.
  - cbn [forallb] in Hall. apply andb_true_iff in Hall as [Hq Hrest].
    destruct (workingDays_within_year year (range q) Hq) as (d & -> & _).
    destruct (status q); apply IH; exact Hrest.
Qed.

Lemma matches_fall_within (year : Z) (lt : LeaveType) (requests : list LeaveRequest) :
  forallb (fun q => falls_within year (range q))
          (filter (matches year lt) requests) = true.
Proof.
  apply forallb_forall. intros q Hq. apply filter_In in Hq as [_ Hm].
  unfold matches in Hm. apply andb_true_iff in Hm as [Hf _]. exact Hf.
Qed.

Lemma snapshot_succeeds (year : Z) (lt : LeaveType) (allotted : Z)
    (requests : list LeaveRequest) :
  exists b, snapshot year lt allotted requests = Ok b /\ unclamped allotted b.
Proof.
  unfold snapshot.
  destruct (tally_succeeds year _ (matches_fall_within year lt requests) 0 0)
    as (u & p & ->).
  eexists. split; [reflexivity |].
  unfold unclamped. cbn [total used pending available]. lia.
Qed.

(** C9. In the reconciler of the specification, [reconcile] returns for
    every allotment, request list and year; each snapshot it returns has
    [available = total - used - pending], which is negative as soon as
    [used + pending] exceeds [total]. *)
Theorem reconcile_returns_unclamped_snapshots
    (allotment : Allotment) (requestsForYear : list LeaveRequest) (year : Z) :
  exists b, reconcile allotment requestsForYear year = Ok b /\
            unclamped (annual allotment) (annual_snapshot b) /\
            unclamped (sick allotment) (sick_snapshot b).
Proof.
  unfold reconcile.
  destruct (snapshot_succeeds year Annual (annual allotment) requestsForYear)
    as (a & -> & Ha).
  destruct (snapshot_succeeds year Sick (sick allotment) requestsForYear)
    as (s & -> & Hs).
  eexists. split; [reflexivity |]. split; assumption.
Qed.

Example reconcile_20_5_3 :
  reconcile {| annual := 20; sick := 10 |} [approved_week; pending_three] 2025 =
  Ok {| annual_snapshot :=
          {| total := 20; used := 5; pending := 3; available := 12 |};
        sick_snapshot :=
          {| total := 10; used := 0; pending := 0; available := 10 |} |}.
Proof. reflexivity. Qed.

(** Over-allocation: the same requests against an allotment of 6, and an
    inverted request that falls within no year. *)
Example reconcile_over_allocated :
  reconcile {| annual := 6; sick := 0 |}
    [approved_week; pending_three;
     {| employeeId := 1; leaveType := Annual;
        range := {| range_start := ymd 2025 1 10; range_end := ymd 2025 1 5 |};
        status := Approved |}] 2025 =
  Ok {| annual_snapshot :=
          {| total := 6; used := 5; pending := 3; available := -2 |};
        sick_snapshot :=
          {| total := 0; used := 0; pending := 0; available := 0 |} |}.
Proof. reflexivity. Qed.

End Reconciler.

(** * Further properties of the two methods *)

(** ** The loop, in any module *)

Lemma while_loop_out_of_range (g : namespace) (end_date : date) (days : Z) (current : date) :
  bound g "timedelta" = true -> current <= end_date ->
  ~ (MINORDINAL <= current + 1 <= MAXORDINAL) ->
  while_loop g end_date days current = Raise OverflowError.
Proof.
  intros Hg H Hr. rewrite while_loop_equation_1.
  destruct (Z_le_gt_dec current end_date) as [Hle | Hgt]; [| lia].
  cbn. unfold resolve. rewrite Hg. cbn. unfold date_add.
  destruct (Z.leb_spec MINORDINAL (current + 1));
    destruct (Z.leb_spec (current + 1) MAXORDINAL); try reflexivity; lia.
Qed.

(** A returned counter is the starting counter plus the working days from
    [current] to [end_date]. *)
Lemma while_loop_returns_count (g : namespace) (end_date : date) :
  forall (n : nat) (days : Z) (current : date) (r : Z),
    Z.to_nat (end_date + 1 - current) = n ->
    while_loop g end_date days current = Return r ->
    r = days + spec_workingDays current end_date.
Proof.
  induction n as [| n IH]; intros days current r Hn Hret.
  - rewrite while_loop_exit in Hret by lia. injection Hret as <-.
    rewrite spec_workingDays_empty by lia. lia.
  - destruct (bound g "timedelta") eqn:Hg.
    + destruct (Z_le_gt_dec MINORDINAL (current + 1)) as [Hlo | Hlo];
        [destruct (Z_le_gt_dec (current + 1) MAXORDINAL) as [Hhi | Hhi] |].
      * rewrite while_loop_step in Hret by (assumption || lia).
        apply IH in Hret; [| lia].
        rewrite (spec_workingDays_first current) by lia.
        destruct (weekday current <? 5); lia.
      * rewrite while_loop_out_of_range in Hret by (assumption || lia).
        discriminate Hret.
      * rewrite while_loop_out_of_range in Hret by (assumption || lia).
        discriminate Hret.
    + rewrite while_loop_unbound in Hret by (assumption || lia).
      discriminate Hret.
Qed.

Lemma calculate_leave_duration_returns_count
    (g : namespace) (start_date end_date : date) (n : Z) :
  calculate_leave_duration g start_date end_date = Return n ->
  n = spec_workingDays start_date end_date.
Proof.
  intros H. apply (while_loop_returns_count g end_date _ 0 start_date n eq_refl) in H.
  lia.
Qed.

(** ** More on the count *)

Lemma calendar_days_length (s e : date) :
  Z.of_nat (List.length (calendar_days s e)) = Z.max 0 (e + 1 - s).
Proof. unfold calendar_days. rewrite length_map, length_seq. lia. Qed.

Lemma spec_workingDays_le_days (s e : date) :
  spec_workingDays s e <= Z.max 0 (e + 1 - s).
Proof.
  rewrite <- calendar_days_length. unfold spec_workingDays.
  apply inj_le. apply filter_length_le.
Qed.

Lemma spec_workingDays_split (s m : date) :
  forall (n : nat) (e : date),
    Z.to_nat (e - m) = n -> s <= m + 1 -> m <= e ->
    spec_workingDays s e = spec_workingDays s m + spec_workingDays (m + 1) e.
Proof.
  induction n as [| n IH]; intros e Hn Hs He.
  - replace e with m by lia. rewrite (spec_workingDays_empty (m + 1)) by lia. lia.
  - replace e with ((e - 1) + 1) by lia.
    rewrite (spec_workingDays_last s), (spec_workingDays_last (m + 1)) by lia.
    rewrite (IH (e - 1)) by lia. lia.
Qed.

Lemma weekday_shift (d k : Z) : weekday (d + k) = (weekday d + k) mod 7.
Proof.
  unfold weekday. rewrite Zplus_mod_idemp_l. f_equal. lia.
Qed.

Lemma weekday_cases (d : date) :
  weekday d = 0 \/ weekday d = 1 \/ weekday d = 2 \/ weekday d = 3 \/
  weekday d = 4 \/ weekday d = 5 \/ weekday d = 6.
Proof. pose proof (weekday_range d). lia. Qed.

(** Seven days in a row hold five working days, whatever the first day. *)
Lemma spec_workingDays_week (s : date) : spec_workingDays s (s + 6) = 5.
Proof.
  unfold spec_workingDays, calendar_days.
  replace (Z.to_nat (s + 6 + 1 - s)) with 7%nat by lia.
  cbn [seq map filter]. rewrite !is_working_day_weekday, !weekday_shift.
  destruct (weekday_cases s) as [H | [H | [H | [H | [H | [H | H]]]]]];
    rewrite H; reflexivity.
Qed.

(** ** [calculate_leave_duration]: one more day at the end *)

(** C8. The count is monotonic in the end date. In every module, for every
    range with start not after end: whenever [calculate_leave_duration]
    returns [a] for the range and [b] for the range with its end moved one
    calendar day later, [a <= b]; the result never decreases. *)
Theorem calculate_leave_duration_never_decreases
    (g : namespace) (start_date end_date : date) (a b : Z) :
  start_date <= end_date ->
  calculate_leave_duration g start_date end_date = Return a ->
  calculate_leave_duration g start_date (end_date + 1) = Return b ->
  a <= b.
Proof.
  intros Hle Ha Hb.
  apply calculate_leave_duration_returns_count in Ha, Hb. subst a b.
  rewrite spec_workingDays_last by lia.
  destruct (weekday (end_date + 1) <? 5); lia.
Qed.

Lemma calculate_leave_duration_never_decreases_witness :
  mon_2025_01_06 <= fri_2025_01_10 /\
  calculate_leave_duration utils_globals_with_timedelta
    mon_2025_01_06 fri_2025_01_10 = Return 5 /\
  calculate_leave_duration utils_globals_with_timedelta
    mon_2025_01_06 (fri_2025_01_10 + 1) = Return 5 /\
  5 <= 5.
Proof.
  assert (H0 : mon_2025_01_06 <= fri_2025_01_10) by (vm_compute; discriminate).
  split; [exact H0 |]. split; [reflexivity |]. split; [reflexivity |].
  apply (calculate_leave_duration_never_decreases utils_globals_with_timedelta
           mon_2025_01_06 fri_2025_01_10 5 5 H0); reflexivity.
Defined.

(** ** [calculate_leave_duration]: every outcome *)

(** X1. For two valid dates the outcome of [calculate_leave_duration] is one
    of four: 0 on an inverted range; [NameError] when the module does not
    bind [timedelta]; [OverflowError] when the range ends on [date.max];
    the number of Monday-to-Friday days otherwise. *)
Theorem calculate_leave_duration_outcome
    (g : namespace) (start_date end_date : date) :
  is_date start_date -> is_date end_date ->
  calculate_leave_duration g start_date end_date =
  if end_date <? start_date then Return 0
  else if negb (bound g "timedelta") then Raise (NameError "timedelta")
  else if end_date =? MAXORDINAL then Raise OverflowError
  else Return (spec_workingDays start_date end_date).
Proof.
  intros [Hs _] [_ He]. unfold MINORDINAL in Hs.
  destruct (Z.ltb_spec end_date start_date) as [Hinv | Hord].
  - apply while_loop_exit. exact Hinv.
  - destruct (bound g "timedelta") eqn:Hg; cbn [negb].
    + destruct (Z.eqb_spec end_date MAXORDINAL) as [-> | Hne].
      * apply calculate_leave_duration_date_max; [exact Hg |].
        unfold is_date, MINORDINAL. lia.
      * apply calculate_leave_duration_counts; [exact Hg | lia | lia].
    + apply calculate_leave_duration_unbound; assumption.
Qed.

Lemma calculate_leave_duration_outcome_witness :
  is_date mon_2025_01_06 /\ is_date MAXORDINAL /\
  calculate_leave_duration utils_globals_with_timedelta mon_2025_01_06 MAXORDINAL =
  Raise OverflowError.
Proof.
  assert (H1 : is_date mon_2025_01_06) by (split; vm_compute; discriminate).
  assert (H2 : is_date MAXORDINAL) by (split; vm_compute; discriminate).
  split; [exact H1 |]. split; [exact H2 |].
  rewrite (calculate_leave_duration_outcome _ _ _ H1 H2). reflexivity.
Defined.

(** X2. With utils.py as it is, [calculate_leave_duration] never returns a
    positive count: a returned value is 0 and the range was inverted. *)
Theorem calculate_leave_duration_deployed_returns_only_zero
    (start_date end_date : date) (n : Z) :
  calculate_leave_duration utils_globals start_date end_date = Return n ->
  n = 0 /\ end_date < start_date.
Proof.
  intros H. destruct (Z_le_gt_dec start_date end_date) as [Hle | Hgt].
  - rewrite calculate_leave_duration_unbound in H by (reflexivity || exact Hle).
    discriminate H.
  - unfold calculate_leave_duration in H. rewrite while_loop_exit in H by lia.
    injection H as <-. split; [reflexivity | lia].
Qed.

Lemma calculate_leave_duration_deployed_returns_only_zero_witness :
  calculate_leave_duration utils_globals fri_2025_01_10 sun_2025_01_05 = Return 0 /\
  0 = 0 /\ sun_2025_01_05 < fri_2025_01_10.
Proof.
  split; [reflexivity |].
  apply (calculate_leave_duration_deployed_returns_only_zero
           fri_2025_01_10 sun_2025_01_05 0).
  reflexivity.
Defined.

(** X3. With utils.py as it is, [validate_leave_request] never accepts a
    request: every result it returns has [valid = False], zero working days,
    the ordering message first and the no-working-days message last. *)
Theorem validate_leave_request_deployed_never_accepts
    (today start_date end_date : date) (leave_type : string) (r : ValidationResult) :
  validate_leave_request utils_globals today start_date end_date leave_type = Return r ->
  valid r = false /\ working_days r = 0 /\
  hd_error (errors r) = Some msg_order /\ last (errors r) msg_order = msg_none.
Proof.
  intros H. pose proof H as H'.
  apply validate_leave_request_errors in H' as (Hwd & _ & _).
  destruct (Z_le_gt_dec start_date end_date) as [Hle | Hgt].
  - rewrite calculate_leave_duration_unbound in Hwd by (reflexivity || exact Hle).
    discriminate Hwd.
  - rewrite validate_leave_request_inverted in H by (reflexivity || lia).
    injection H as <-. cbn [valid working_days errors]. unfold spec_errors.
    destruct (Z.leb_spec start_date end_date) as [Hn | _]; [lia |].
    destruct (today <=? start_date), (py_in leave_type leave_types);
      repeat split; reflexivity.
Qed.

Lemma validate_leave_request_deployed_never_accepts_witness :
  let r := {| valid := false; errors := [msg_order; msg_past; msg_type; msg_none];
              working_days := 0 |} in
  validate_leave_request utils_globals (ymd 2025 1 20)
    fri_2025_01_10 sun_2025_01_05 "vacation" = Return r /\
  valid r = false /\ working_days r = 0 /\
  hd_error (errors r) = Some msg_order /\ last (errors r) msg_order = msg_none.
Proof.
  split; [reflexivity |].
  apply (validate_leave_request_deployed_never_accepts (ymd 2025 1 20)
           fri_2025_01_10 sun_2025_01_05 "vacation").
  reflexivity.
Defined.

(** X4. In any module, a value returned by [calculate_leave_duration] is the
    number of Monday-to-Friday days from start to end; it is never negative
    and never above the number of calendar days of the range. *)
Theorem calculate_leave_duration_returned_value
    (g : namespace) (start_date end_date : date) (n : Z) :
  calculate_leave_duration g start_date end_date = Return n ->
  n = spec_workingDays start_date end_date /\
  0 <= n <= Z.max 0 (end_date + 1 - start_date).
Proof.
  intros H. apply calculate_leave_duration_returns_count in H. subst n.
  split; [reflexivity |]. split.
  - apply spec_workingDays_nonneg.
  - apply spec_workingDays_le_days.
Qed.

Lemma calculate_leave_duration_returned_value_witness :
  calculate_leave_duration utils_globals_with_timedelta
    mon_2025_01_06 sun_2025_01_12 = Return 5 /\
  5 = spec_workingDays mon_2025_01_06 sun_2025_01_12 /\
  0 <= 5 <= Z.max 0 (sun_2025_01_12 + 1 - mon_2025_01_06).
Proof.
  split; [reflexivity |].
  apply (calculate_leave_duration_returned_value utils_globals_with_timedelta).
  reflexivity.
Defined.

(** X5. Seven more days at the end add exactly five working days: when the
    method returns for a range and for the range extended by a week, the
    second value is the first plus 5. *)
Theorem calculate_leave_duration_one_more_week
    (g : namespace) (start_date end_date : date) (a b : Z) :
  start_date <= end_date + 1 ->
  calculate_leave_duration g start_date end_date = Return a ->
  calculate_leave_duration g start_date (end_date + 7) = Return b ->
  b = a + 5.
Proof.
  intros Hs Ha Hb.
  apply calculate_leave_duration_returns_count in Ha, Hb. subst a b.
  rewrite (spec_workingDays_split start_date end_date _ (end_date + 7) eq_refl)
    by lia.
  replace (end_date + 7) with (end_date + 1 + 6) by lia.
  rewrite spec_workingDays_week. reflexivity.
Qed.

Lemma calculate_leave_duration_one_more_week_witness :
  mon_2025_01_06 <= ymd 2025 1 8 + 1 /\
  calculate_leave_duration utils_globals_with_timedelta
    mon_2025_01_06 (ymd 2025 1 8) = Return 3 /\
  calculate_leave_duration utils_globals_with_timedelta
    mon_2025_01_06 (ymd 2025 1 8 + 7) = Return 8 /\
  8 = 3 + 5.
Proof.
  assert (H0 : mon_2025_01_06 <= ymd 2025 1 8 + 1) by (vm_compute; discriminate).
  split; [exact H0 |]. split; [reflexivity |]. split; [reflexivity |].
  apply (calculate_leave_duration_one_more_week utils_globals_with_timedelta
           mon_2025_01_06 (ymd 2025 1 8) 3 8 H0); reflexivity.
Defined.

(** X6. Counting is additive over adjacent ranges: when the method returns
    for [start..mid], for [mid+1..end] and for [start..end], the third value
    is the sum of the first two. *)
Theorem calculate_leave_duration_additive
    (g : namespace) (start_date mid end_date : date) (a b c : Z) :
  start_date <= mid + 1 -> mid <= end_date ->
  calculate_leave_duration g start_date mid = Return a ->
  calculate_leave_duration g (mid + 1) end_date = Return b ->
  calculate_leave_duration g start_date end_date = Return c ->
  c = a + b.
Proof.
  intros Hs He Ha Hb Hc.
  apply calculate_leave_duration_returns_count in Ha, Hb, Hc. subst a b c.
  apply (spec_workingDays_split start_date mid _ end_date eq_refl); assumption.
Qed.

Lemma calculate_leave_duration_additive_witness :
  mon_2025_01_06 <= fri_2025_01_10 + 1 /\ fri_2025_01_10 <= fri_2025_02_21 /\
  calculate_leave_duration utils_globals_with_timedelta
    mon_2025_01_06 fri_2025_01_10 = Return 5 /\
  calculate_leave_duration utils_globals_with_timedelta
    (fri_2025_01_10 + 1) fri_2025_02_21 = Return 30 /\
  calculate_leave_duration utils_globals_with_timedelta
    mon_2025_01_06 fri_2025_02_21 = Return 35 /\
  35 = 5 + 30.
Proof.
  assert (H1 : mon_2025_01_06 <= fri_2025_01_10 + 1) by (vm_compute; discriminate).
  assert (H2 : fri_2025_01_10 <= fri_2025_02_21) by (vm_compute; discriminate).
  split; [exact H1 |]. split; [exact H2 |].
  split; [reflexivity |]. split; [reflexivity |]. split; [reflexivity |].
  apply (calculate_leave_duration_additive utils_globals_with_timedelta
           mon_2025_01_06 fri_2025_01_10 fri_2025_02_21 5 30 35 H1 H2);
    reflexivity.
Defined.

(** ** [validate_leave_request]: what a returned result says *)

(** X7. In any module, a result returned by [validate_leave_request] is
    valid exactly when the start is not after the end, the start is not
    before today, the leave type is one of the five, and the range holds
    between 1 and 30 working days; [working_days] is that count. *)
Theorem validate_leave_request_accepts_iff
    (g : namespace) (today start_date end_date : date) (leave_type : string)
    (r : ValidationResult) :
  validate_leave_request g today start_date end_date leave_type = Return r ->
  working_days r = spec_workingDays start_date end_date /\
  (valid r = true <->
   start_date <= end_date /\ today <= start_date /\
   py_in leave_type leave_types = true /\ 1 <= working_days r <= 30).
Proof.
  intros H. apply validate_leave_request_errors in H as (Hwd & Herr & Hv).
  apply calculate_leave_duration_returns_count in Hwd.
  split; [exact Hwd |].
  pose proof (spec_workingDays_nonneg start_date end_date) as Hnn.
  rewrite Hv, Herr, <- Hwd in *. unfold spec_errors.
  destruct (Z.leb_spec start_date end_date), (Z.leb_spec today start_date),
    (py_in leave_type leave_types), (Z.eqb_spec (working_days r) 0),
    (Z.ltb_spec 30 (working_days r)); cbn;
    (split;
     [ intros Hb; first [discriminate Hb | repeat split; (reflexivity || lia)]
     | intros (Ka & Kb & Kc & Kd); first [reflexivity | discriminate Kc | lia] ]).
Qed.

Lemma validate_leave_request_accepts_iff_witness :
  let r := {| valid := true; errors := []; working_days := 5 |} in
  validate_leave_request utils_globals_with_timedelta (ymd 2025 1 1)
    mon_2025_01_06 fri_2025_01_10 "annual" = Return r /\
  working_days r = spec_workingDays mon_2025_01_06 fri_2025_01_10 /\
  (valid r = true <->
   mon_2025_01_06 <= fri_2025_01_10 /\ ymd 2025 1 1 <= mon_2025_01_06 /\
   py_in "annual" leave_types = true /\ 1 <= working_days r <= 30).
Proof.
  split; [reflexivity |].
  apply (validate_leave_request_accepts_iff utils_globals_with_timedelta).
  reflexivity.
Defined.

(** X8. In any module, a returned result carries at most four messages and
    none twice; the no-working-days message is there exactly when
    [working_days] is 0 and the 30-day message exactly when it is above 30. *)
Theorem validate_leave_request_messages
    (g : namespace) (today start_date end_date : date) (leave_type : string)
    (r : ValidationResult) :
  validate_leave_request g today start_date end_date leave_type = Return r ->
  (List.length (errors r) <= 4)%nat /\ NoDup (errors r) /\
  (In msg_none (errors r) <-> working_days r = 0) /\
  (In msg_long (errors r) <-> working_days r > 30).
Proof.
  intros H. apply validate_leave_request_errors in H as (_ & Herr & _).
  rewrite Herr. unfold spec_errors.
  destruct (start_date <=? end_date), (today <=? start_date),
    (py_in leave_type leave_types), (Z.eqb_spec (working_days r) 0),
    (Z.ltb_spec 30 (working_days r));
    (split; [cbn; lia |]);
    (split; [repeat constructor; cbn; intuition discriminate |]);
    cbn; split; split; intros; try lia; try tauto;
    repeat match goal with
           | Hor : _ \/ _ |- _ => destruct Hor as [Hor | Hor]
           | Heq : _ = _ :> string |- _ => discriminate Heq
           | Hf : False |- _ => destruct Hf
           end.
Qed.

Lemma validate_leave_request_messages_witness :
  let r := {| valid := false; errors := [msg_long]; working_days := 35 |} in
  validate_leave_request utils_globals_with_timedelta (ymd 2025 1 1)
    mon_2025_01_06 fri_2025_02_21 "annual" = Return r /\
  (List.length (errors r) <= 4)%nat /\ NoDup (errors r) /\
  (In msg_none (errors r) <-> working_days r = 0) /\
  (In msg_long (errors r) <-> working_days r > 30).
Proof.
  split; [reflexivity |].
  apply (validate_leave_request_messages utils_globals_with_timedelta (ymd 2025 1 1)
           mon_2025_01_06 fri_2025_02_21 "annual").
  reflexivity.
Defined.

(** * The employee form: properties *)

(** ** [strip] *)

Lemma lstrip_spaces (w s : pystr) :
  forallb py_isspace w = true -> lstrip (w ++ s) = lstrip s.
Proof.
  induction w as [| c w IH]; intros Hw; cbn [app lstrip forallb] in *.
  - reflexivity.
  - apply andb_true_iff in Hw as [Hc Hw]. rewrite Hc. apply IH, Hw.
Qed.

Lemma lstrip_only_spaces (w : pystr) :
  forallb py_isspace w = true -> lstrip w = [].
Proof.
  intros Hw. rewrite <- (app_nil_r w). rewrite lstrip_spaces by exact Hw.
  reflexivity.
Qed.

(** What [lstrip] removes is white space, and what it leaves does not start
    with white space. *)
Lemma lstrip_spec (s : pystr) :
  exists w, forallb py_isspace w = true /\ s = w ++ lstrip s /\
            match lstrip s with
            | [] => True
            | c :: _ => py_isspace c = false
            end.
Proof.
  induction s as [| c s (w & Hw & Hs & Hhd)]; cbn [lstrip].
  - exists []. repeat split.
  - destruct (py_isspace c) eqn:Hc.
    + exists (c :: w). cbn [forallb app]. rewrite Hc, Hw.
      repeat split; [f_equal; exact Hs | exact Hhd].
    + exists []. repeat split. exact Hc.
Qed.

Lemma lstrip_keeps (s w : pystr) :
  lstrip s <> [] -> lstrip (s ++ w) = lstrip s ++ w.
Proof.
  induction s as [| c s IH]; cbn [lstrip app]; intros Hne.
  - contradiction.
  - destruct (py_isspace c); [apply IH, Hne | reflexivity].
Qed.

Lemma rstrip_spaces (s w : pystr) :
  forallb py_isspace w = true -> rstrip (s ++ w) = rstrip s.
Proof.
  intros Hw. unfold rstrip. rewrite rev_app_distr, lstrip_spaces; [reflexivity |].
  rewrite forallb_forall in *. intros c Hc. apply Hw, in_rev, Hc.
Qed.

Lemma rstrip_only_spaces (w : pystr) :
  forallb py_isspace w = true -> rstrip w = [].
Proof.
  intros Hw. change w with ([] ++ w). rewrite rstrip_spaces by exact Hw.
  reflexivity.
Qed.

(** What [rstrip] removes is white space, and what it leaves does not end
    with white space. *)
Lemma rstrip_spec (s : pystr) :
  exists w, forallb py_isspace w = true /\ s = rstrip s ++ w /\
            forall c, last (rstrip s) c = c \/ py_isspace (last (rstrip s) c) = false.
Proof.
  unfold rstrip. destruct (lstrip_spec (rev s)) as (w & Hw & Hs & Hhd).
  exists (rev w). split; [| split].
  - rewrite forallb_forall in *. intros c Hc. apply Hw, in_rev. exact Hc.
  - rewrite <- rev_app_distr, <- Hs, rev_involutive. reflexivity.
  - intros c. destruct (lstrip (rev s)) as [| d t]; [left; reflexivity |].
    right. cbn [rev]. rewrite last_last. exact Hhd.
Qed.

Lemma strip_pads (w1 s w2 : pystr) :
  forallb py_isspace w1 = true -> forallb py_isspace w2 = true ->
  strip (w1 ++ s ++ w2) = strip s.
Proof.
  intros H1 H2. unfold strip. rewrite lstrip_spaces by exact H1.
  destruct (lstrip s) as [| c t] eqn:Hs.
  - destruct (lstrip_spec s) as (w & Hw & Heq & _). rewrite Hs, app_nil_r in Heq.
    subst s. rewrite lstrip_only_spaces; [reflexivity |].
    rewrite forallb_app, Hw, H2. reflexivity.
  - rewrite lstrip_keeps by (rewrite Hs; discriminate).
    rewrite Hs. apply rstrip_spaces, H2.
Qed.

(** [strip] as a whole: the string is white space, the stripped string,
    white space; the stripped string neither starts nor ends with white
    space. *)
Lemma strip_spec (s : pystr) :
  exists w1 w2,
    forallb py_isspace w1 = true /\ forallb py_isspace w2 = true /\
    s = w1 ++ strip s ++ w2 /\
    match strip s with
    | [] => True
    | c :: _ => py_isspace c = false /\ py_isspace (last (strip s) c) = false
    end.
Proof.
  unfold strip.
  destruct (lstrip_spec s) as (w1 & Hw1 & Hs1 & Hhd).
  destruct (rstrip_spec (lstrip s)) as (w2 & Hw2 & Hs2 & Hlast).
  exists w1, w2. split; [exact Hw1 |]. split; [exact Hw2 |]. split.
  - rewrite <- Hs2. exact Hs1.
  - destruct (rstrip (lstrip s)) as [| c t] eqn:Hr; [exact I |].
    rewrite Hs2 in Hhd. cbn [app] in Hhd. split; [exact Hhd |].
    destruct (Hlast c) as [Heq | Hns]; [rewrite Heq; exact Hhd | exact Hns].
Qed.

Lemma strip_length (s : pystr) : py_len (strip s) <= py_len s.
Proof.
  destruct (strip_spec s) as (w1 & w2 & _ & _ & Hs & _).
  unfold py_len. rewrite Hs at 2. rewrite !length_app. lia.
Qed.

Lemma py_contains_app (c : Z) (a b : pystr) :
  py_contains c (a ++ b) = py_contains c a || py_contains c b.
Proof. apply existsb_app. Qed.

Lemma py_contains_spaces (c : Z) (w : pystr) :
  py_isspace c = false -> forallb py_isspace w = true -> py_contains c w = false.
Proof.
  intros Hc Hw. unfold py_contains.
  destruct (existsb (Z.eqb c) w) eqn:Hex; [| reflexivity].
  apply existsb_exists in Hex as (d & Hd & Heq). apply Z.eqb_eq in Heq. subst d.
  rewrite forallb_forall in Hw. rewrite (Hw c Hd) in Hc. discriminate Hc.
Qed.

Lemma py_contains_strip (c : Z) (s : pystr) :
  py_isspace c = false -> py_contains c (strip s) = py_contains c s.
Proof.
  intros Hc. destruct (strip_spec s) as (w1 & w2 & Hw1 & Hw2 & Hs & _).
  rewrite Hs at 2. rewrite !py_contains_app.
  rewrite (py_contains_spaces c w1), (py_contains_spaces c w2) by assumption.
  rewrite orb_false_r. reflexivity.
Qed.

(** The empty-string test of the two length rules adds nothing. *)
Lemma too_short_length (s : pystr) : too_short s = (py_len (strip s) <? 2).
Proof.
  unfold too_short. destruct s as [| c s]; [reflexivity | reflexivity].
Qed.

Lemma bad_email_contains (email : pystr) :
  bad_email email =
  negb (py_contains at_sign email && py_contains full_stop email).
Proof.
  unfold bad_email. destruct email as [| c s]; [reflexivity |].
  cbn [py_not orb]. rewrite negb_andb. reflexivity.
Qed.

(** ** [validate_employee_data] *)

(** The messages of the violated rules, in rule order. *)
Lemma validate_employee_data_result
    (g : namespace) (today : date) (name email department : pystr)
    (joining_date : date) (r : EmployeeValidation) :
  validate_employee_data g today name email department joining_date = Return r ->
  emp_errors r =
    (if py_len (strip name) <? 2 then [msg_name] else []) ++
    (if py_contains at_sign email && py_contains full_stop email
     then [] else [msg_email]) ++
    (if py_len (strip department) <? 2 then [msg_department] else []) ++
    (if joining_date <=? today then [] else [msg_joining]) /\
  emp_valid r = Nat.eqb (List.length (emp_errors r)) 0.
Proof.
  unfold validate_employee_data.
  rewrite !too_short_length, bad_email_contains, Z.gtb_ltb, Z.ltb_antisym.
  generalize (py_len (strip name) <? 2), (py_len (strip department) <? 2),
    (py_contains at_sign email && py_contains full_stop email),
    (joining_date <=? today).
  intros b1 b2 b3 b4 H.
  destruct (resolve g "date") as [[] | ex]; [| discriminate H].
  cbn [bind] in H. injection H as <-. cbn [emp_errors emp_valid].
  split; [| reflexivity].
  destruct b1, b2, b3, b4; reflexivity.
Qed.

Lemma validate_employee_data_returns
    (g : namespace) (today : date) (name email department : pystr)
    (joining_date : date) :
  resolve g "date" = Return tt ->
  exists r,
    validate_employee_data g today name email department joining_date = Return r.
Proof.
  intros Hd. unfold validate_employee_data. rewrite Hd. cbn [bind]. eauto.
Qed.

(** X9. With utils.py as it is, [validate_employee_data] returns a result
    for every input; the result lists the message of every violated rule,
    in rule order, and it is valid exactly when the stripped name and the
    stripped department have at least 2 characters, the e-mail holds both
    an at sign and a full stop, and the joining date is not after today. *)
Theorem validate_employee_data_deployed
    (today : date) (name email department : pystr) (joining_date : date) :
  exists r,
    validate_employee_data utils_globals today name email department joining_date
      = Return r /\
    emp_errors r =
      (if py_len (strip name) <? 2 then [msg_name] else []) ++
      (if py_contains at_sign email && py_contains full_stop email
       then [] else [msg_email]) ++
      (if py_len (strip department) <? 2 then [msg_department] else []) ++
      (if joining_date <=? today then [] else [msg_joining]) /\
    (emp_valid r = true <->
     2 <= py_len (strip name) /\
     py_contains at_sign email = true /\ py_contains full_stop email = true /\
     2 <= py_len (strip department) /\ joining_date <= today).
Proof.
  destruct (validate_employee_data_returns utils_globals today name email
              department joining_date utils_binds_date) as (r & Hr).
  exists r. split; [exact Hr |].
  apply validate_employee_data_result in Hr as (Herr & Hv).
  split; [exact Herr |]. rewrite Hv, Herr.
  destruct (Z.ltb_spec (py_len (strip name)) 2),
    (py_contains at_sign email), (py_contains full_stop email),
    (Z.ltb_spec (py_len (strip department)) 2),
    (Z.leb_spec joining_date today); cbn;
    (split;
     [ intros Hb; first [discriminate Hb | repeat split; (reflexivity || lia)]
     | intros (Ka & Kb & Kc & Kd & Ke);
       first [reflexivity | discriminate Kb | discriminate Kc | lia] ]).
Qed.

(** X10. White space around the name and around the department changes
    nothing: the padded input gets the same outcome as the bare one. *)
Theorem validate_employee_data_ignores_padding
    (g : namespace) (today : date) (name email department : pystr)
    (joining_date : date) (w1 w2 w3 w4 : pystr) :
  forallb py_isspace w1 = true -> forallb py_isspace w2 = true ->
  forallb py_isspace w3 = true -> forallb py_isspace w4 = true ->
  validate_employee_data g today (w1 ++ name ++ w2) email
    (w3 ++ department ++ w4) joining_date =
  validate_employee_data g today name email department joining_date.
Proof.
  intros H1 H2 H3 H4. unfold validate_employee_data.
  rewrite !too_short_length, !strip_pads by assumption. reflexivity.
Qed.

Lemma validate_employee_data_ignores_padding_witness :
  forallb py_isspace [32; 9] = true /\ forallb py_isspace [10] = true /\
  forallb py_isspace [] = true /\ forallb py_isspace [160] = true /\
  validate_employee_data utils_globals (ymd 2025 1 6) ([32; 9] ++ ada_name ++ [10])
    ada_email ([] ++ hr_department ++ [160]) (ymd 2024 3 1) =
  validate_employee_data utils_globals (ymd 2025 1 6) ada_name
    ada_email hr_department (ymd 2024 3 1).
Proof.
  repeat (split; [reflexivity |]).
  apply validate_employee_data_ignores_padding; reflexivity.
Defined.

(** ** The submit branch of [show_employees] *)

Section EmployeeFormProperties.

Variable lower : pystr -> pystr.
Variable strftime_Y_m_d : date -> pystr.
Variable service : employee_data -> json_reply.

(** A stripped string of two characters or more starts and ends with a
    character that is not white space. *)
Lemma strip_ends (s : pystr) :
  2 <= py_len (strip s) ->
  exists c rest, strip s = c :: rest /\ py_isspace c = false /\
                 py_isspace (last (strip s) c) = false.
Proof.
  intros Hlen. destruct (strip_spec s) as (_ & _ & _ & _ & _ & Hends).
  destruct (strip s) as [| c rest]; [cbn in Hlen; lia |].
  exists c, rest. split; [reflexivity | exact Hends].
Qed.

(** X11. Whatever the service answers, also when the branch ends in an
    exception, every request the submit branch sends is a POST on
    [/employees] whose name and department are the stripped inputs, at least
    2 characters long and free of white space at both ends, whose e-mail is
    the lowered stripped input and holds an at sign and a full stop before
    lowering, and whose joining date is not after today. *)
Theorem add_employee_submitted_sends_valid_data
    (g : namespace) (today : date) (name email department : pystr)
    (joining_date : date) (endpoint : string) (data : employee_data) :
  In (http_post endpoint data)
     (fst (add_employee_submitted lower strftime_Y_m_d service g today
             name email department joining_date)) ->
  endpoint = "/employees" /\
  data_name data = strip name /\
  (exists c rest, data_name data = c :: rest /\ rest <> [] /\
      py_isspace c = false /\ py_isspace (last (data_name data) c) = false) /\
  data_department data = strip department /\
  (exists c rest, data_department data = c :: rest /\ rest <> [] /\
      py_isspace c = false /\ py_isspace (last (data_department data) c) = false) /\
  data_email data = lower (strip email) /\
  py_contains at_sign (strip email) = true /\
  py_contains full_stop (strip email) = true /\
  data_joining_date data = strftime_Y_m_d joining_date /\
  joining_date <= today.
Proof.
  unfold add_employee_submitted. intros Hin.
  destruct (py_not name || py_not email || py_not department).
  { destruct Hin as [Hin | []]. discriminate Hin. }
  destruct (validate_employee_data g today name email department joining_date)
    as [v | ex] eqn:Hv; [| destruct Hin].
  apply validate_employee_data_result in Hv as (Herr & Hvalid).
  destruct (emp_valid v) eqn:Hok; cbn [negb] in Hin.
  2:{ apply in_map_iff in Hin as (m & Hm & _). discriminate Hm. }
  assert (Hev : data = {| data_name := strip name;
                          data_email := lower (strip email);
                          data_department := strip department;
                          data_joining_date := strftime_Y_m_d joining_date |}
                /\ endpoint = "/employees").
  { unfold add_employee in Hin.
    destruct (service _) as [fields |]; [destruct (success fields) |];
      cbn [fst app In] in Hin;
      repeat match goal with
             | Hor : _ \/ _ |- _ => destruct Hor as [Hor | Hor]
             | Hf : False |- _ => destruct Hf
             | Heq : _ = http_post _ _ |- _ =>
                 first [discriminate Heq | injection Heq as <- <-]
             end; split; reflexivity. }
  destruct Hev as [-> ->]. cbn [data_name data_email data_department data_joining_date].
  symmetry in Hvalid. apply Nat.eqb_eq, length_zero_iff_nil in Hvalid.
  rewrite Hvalid in Herr. symmetry in Herr.
  apply app_eq_nil in Herr as (Hn & Herr).
  apply app_eq_nil in Herr as (He & Herr).
  apply app_eq_nil in Herr as (Hd & Hj).
  destruct (Z.ltb_spec (py_len (strip name)) 2) as [| Hname]; [discriminate Hn |].
  destruct (Z.ltb_spec (py_len (strip department)) 2) as [| Hdept];
    [discriminate Hd |].
  destruct (py_contains at_sign email) eqn:Hat; [| discriminate He].
  destruct (py_contains full_stop email) eqn:Hdot; [| discriminate He].
  destruct (Z.leb_spec joining_date today) as [Hjoin |]; [| discriminate Hj].
  assert (Hends : forall s, 2 <= py_len (strip s) ->
            exists c rest, strip s = c :: rest /\ rest <> [] /\
              py_isspace c = false /\ py_isspace (last (strip s) c) = false).
  { intros s Hs. destruct (strip_ends s Hs) as (c & rest & Heq & Hc & Hl).
    exists c, rest. repeat split; try assumption.
    intros ->. rewrite Heq in Hs. cbn in Hs. lia. }
  repeat split; try reflexivity; try (apply Hends; assumption); try assumption.
  - rewrite py_contains_strip by reflexivity. exact Hat.
  - rewrite py_contains_strip by reflexivity. exact Hdot.
Qed.

End EmployeeFormProperties.

Lemma add_employee_submitted_sends_valid_data_witness :
  let lower := fun s : pystr => s in
  let strftime := fun _ : date => @nil Z in
  let service := fun _ : employee_data => json_other in
  let data := {| data_name := ada_name; data_email := ada_email;
                 data_department := hr_department; data_joining_date := [] |} in
  add_employee_submitted lower strftime service utils_globals (ymd 2025 1 6)
    ([32] ++ ada_name) ada_email hr_department (ymd 2024 3 1) =
    ([http_post "/employees" data], Some AttributeError) /\
  data_name data = strip ([32] ++ ada_name) /\ ymd 2024 3 1 <= ymd 2025 1 6.
Proof.
  intros lower strftime service data.
  split; [reflexivity |].
  destruct (add_employee_submitted_sends_valid_data lower strftime service
              utils_globals (ymd 2025 1 6) ([32] ++ ada_name) ada_email
              hr_department (ymd 2024 3 1) "/employees" data)
    as (_ & Hname & _ & _ & _ & _ & _ & _ & _ & Hjoin).
  - left. reflexivity.
  - split; [exact Hname | exact Hjoin].
Defined.

Section EmployeeFormFeedback.

Variable lower : pystr -> pystr.
Variable strftime_Y_m_d : date -> pystr.
Variable service : employee_data -> json_reply.


End EmployeeFormFeedback.

(** * The employee drop-down: properties *)

Lemma pystr_eqb_eq (a b : pystr) : pystr_eqb a b = true <-> a = b.
Proof.
  revert b. induction a as [| x a IH]; intros [| y b]; cbn [pystr_eqb];
    try (split; [discriminate | discriminate]); [split; reflexivity |].
  rewrite andb_true_iff, Z.eqb_eq, IH. split.
  - intros [-> ->]. reflexivity.
  - intros Heq. injection Heq as -> ->. split; reflexivity.
Qed.

Lemma pystr_eqb_refl (a : pystr) : pystr_eqb a a = true.
Proof. apply pystr_eqb_eq. reflexivity. Qed.

Lemma pystr_eqb_neq (a b : pystr) : a <> b -> pystr_eqb a b = false.
Proof.
  intros Hne. destruct (pystr_eqb a b) eqn:Heq; [| reflexivity].
  apply pystr_eqb_eq in Heq. contradiction.
Qed.

Section Dict.

Context {V : Type}.

Lemma dict_get_set_same (d : pydict V) (k : pystr) (v : V) :
  dict_get (dict_set d k v) k = Some v.
Proof.
  induction d as [| [k' v'] rest IH]; cbn [dict_set dict_get].
  - rewrite pystr_eqb_refl. reflexivity.
  - destruct (pystr_eqb k k') eqn:Heq; cbn [dict_get]; rewrite Heq;
      [reflexivity | exact IH].
Qed.

Lemma dict_get_set_other (d : pydict V) (k k' : pystr) (v : V) :
  k' <> k -> dict_get (dict_set d k v) k' = dict_get d k'.
Proof.
  intros Hne. induction d as [| [k0 v0] rest IH]; cbn [dict_set dict_get].
  - rewrite pystr_eqb_neq by exact Hne. reflexivity.
  - destruct (pystr_eqb k k0) eqn:Heq; cbn [dict_get].
    + apply pystr_eqb_eq in Heq. subst k0.
      rewrite pystr_eqb_neq by exact Hne. reflexivity.
    + rewrite IH. reflexivity.
Qed.

Lemma dict_keys_set (d : pydict V) (k k' : pystr) (v : V) :
  In k' (dict_keys (dict_set d k v)) <-> k' = k \/ In k' (dict_keys d).
Proof.
  unfold dict_keys. induction d as [| [k0 v0] rest IH]; cbn [dict_set map In fst].
  - split; [intros [H | []]; left; symmetry; exact H | intros [H | []]; left; symmetry; exact H].
  - destruct (pystr_eqb k k0) eqn:Heq; cbn [map In fst].
    + apply pystr_eqb_eq in Heq. subst k0. split; [tauto |].
      intros [-> | H]; [left; reflexivity | exact H].
    + rewrite IH. tauto.
Qed.

Lemma dict_keys_set_NoDup (d : pydict V) (k : pystr) (v : V) :
  NoDup (dict_keys d) -> NoDup (dict_keys (dict_set d k v)).
Proof.
  unfold dict_keys. induction d as [| [k0 v0] rest IH]; cbn [dict_set map fst];
    intros Hnd.
  - constructor; [intros [] | constructor].
  - destruct (pystr_eqb k k0) eqn:Heq; cbn [map fst]; [exact Hnd |].
    inversion Hnd as [| ? ? Hnotin Hrest]; subst. constructor.
    + intros Hin. apply (dict_keys_set rest k k0 v) in Hin as [-> | Hin].
      * rewrite pystr_eqb_refl in Heq. discriminate Heq.
      * contradiction.
    + apply IH, Hrest.
Qed.

Lemma dict_get_key (d : pydict V) (k : pystr) :
  In k (dict_keys d) <-> exists v, dict_get d k = Some v.
Proof.
  unfold dict_keys. induction d as [| [k0 v0] rest IH]; cbn [map In fst dict_get].
  - split; [intros [] | intros [v Hv]; discriminate Hv].
  - destruct (pystr_eqb k k0) eqn:Heq.
    + apply pystr_eqb_eq in Heq. subst k0. split; [eauto | left; reflexivity].
    + rewrite <- IH. split; [intros [-> | H]; [| exact H] | tauto].
      rewrite pystr_eqb_refl in Heq. discriminate Heq.
Qed.

End Dict.

Lemma find_append {A : Type} (f : A -> bool) (a b : list A) :
  find f (a ++ b) = match find f a with Some x => Some x | None => find f b end.
Proof.
  induction a as [| x a IH]; cbn [app find]; [reflexivity |].
  destruct (f x); [reflexivity | exact IH].
Qed.

Lemma fill_get (employees : list employee) :
  forall (d : pydict Z) (k : pystr),
    dict_get (fill d employees) k =
    match find (fun emp => pystr_eqb (option_label emp) k) (rev employees) with
    | Some emp => Some (emp_id emp)
    | None => dict_get d k
    end.
Proof.
  induction employees as [| e rest IH]; intros d k; cbn [fill fold_left rev].
  - reflexivity.
  - fold (fill (dict_set d (option_label e) (emp_id e)) rest). rewrite IH.
    rewrite find_append.
    destruct (find _ (rev rest)) as [emp |]; [reflexivity |].
    cbn [find]. destruct (pystr_eqb (option_label e) k) eqn:Heq.
    + apply pystr_eqb_eq in Heq. subst k. apply dict_get_set_same.
    + apply dict_get_set_other. intros ->. rewrite pystr_eqb_refl in Heq.
      discriminate Heq.
Qed.

Lemma fill_keys (employees : list employee) :
  forall (d : pydict Z) (k : pystr),
    In k (dict_keys (fill d employees)) <->
    In k (dict_keys d) \/ exists emp, In emp employees /\ option_label emp = k.
Proof.
  induction employees as [| e rest IH]; intros d k; cbn [fill fold_left].
  - split; [tauto | intros [H | (emp & [] & _)]; exact H].
  - fold (fill (dict_set d (option_label e) (emp_id e)) rest). rewrite IH.
    rewrite dict_keys_set. cbn [In]. split.
    + intros [[-> | H] | (emp & Hin & Hl)]; eauto.
    + intros [H | (emp & [<- | Hin] & Hl)]; eauto.
Qed.

Lemma fill_NoDup (employees : list employee) :
  forall d : pydict Z, NoDup (dict_keys d) -> NoDup (dict_keys (fill d employees)).
Proof.
  induction employees as [| e rest IH]; intros d Hnd; cbn [fill fold_left].
  - exact Hnd.
  - apply IH, dict_keys_set_NoDup, Hnd.
Qed.

(** X13. Choosing a label in the drop-down gives the id of the last employee
    of the list who carries that label, and [KeyError] when there is none. *)
Theorem employee_options_last_wins (employees : list employee) (k : pystr) :
  dict_get (employee_options employees) k =
  option_map emp_id
    (find (fun emp => pystr_eqb (option_label emp) k) (rev employees)).
Proof.
  unfold employee_options. rewrite fill_get.
  destruct (find _ (rev employees)); reflexivity.
Qed.

(** X14. The options of the drop-down are the labels of the employees, each
    once, and every option can be looked up: it gives the id of an employee
    with that label. *)
Theorem employee_options_keys (employees : list employee) :
  NoDup (dict_keys (employee_options employees)) /\
  (forall k, In k (dict_keys (employee_options employees)) <->
             exists emp, In emp employees /\ option_label emp = k) /\
  (forall k, In k (dict_keys (employee_options employees)) ->
             exists emp, In emp employees /\ option_label emp = k /\
                         dict_get (employee_options employees) k = Some (emp_id emp)).
Proof.
  assert (Hkeys : forall k, In k (dict_keys (employee_options employees)) <->
                            exists emp, In emp employees /\ option_label emp = k).
  { intros k. unfold employee_options. rewrite fill_keys. cbn [dict_keys map In].
    tauto. }
  split; [apply fill_NoDup; constructor |]. split; [exact Hkeys |].
  intros k Hk. apply Hkeys in Hk as (emp & Hin & Hl).
  unfold employee_options. rewrite fill_get.
  destruct (find (fun emp => pystr_eqb (option_label emp) k) (rev employees))
    as [found |] eqn:Hfind.
  - apply find_some in Hfind as (Hfin & Heq). apply pystr_eqb_eq in Heq.
    exists found. split; [apply in_rev, Hfin |]. split; [exact Heq | reflexivity].
  - apply in_rev in Hin. apply (find_none _ _ Hfind) in Hin.
    rewrite Hl, pystr_eqb_refl in Hin. discriminate Hin.
Qed.

(** X15. An employee whose label is carried again later in the list cannot
    be chosen: the label gives the id of one of the later employees. *)
Theorem employee_options_shadowed
    (front back : list employee) (e1 e2 : employee) :
  In e2 back -> option_label e2 = option_label e1 ->
  exists later, In later back /\ option_label later = option_label e1 /\
    dict_get (employee_options (front ++ e1 :: back)) (option_label e1)
      = Some (emp_id later).
Proof.
  intros Hin Hlabel. unfold employee_options. rewrite fill_get.
  rewrite rev_app_distr. cbn [rev]. rewrite <- app_assoc, find_append.
  destruct (find (fun emp => pystr_eqb (option_label emp) (option_label e1))
              (rev back)) as [found |] eqn:Hfind.
  - apply find_some in Hfind as (Hfin & Heq). apply pystr_eqb_eq in Heq.
    exists found. split; [apply in_rev, Hfin |]. split; [exact Heq | reflexivity].
  - apply in_rev in Hin. apply (find_none _ _ Hfind) in Hin.
    rewrite Hlabel, pystr_eqb_refl in Hin. discriminate Hin.
Qed.

Lemma employee_options_shadowed_witness :
  let first := {| emp_id := 1; emp_name := ada_name; emp_email := ada_email |} in
  let second := {| emp_id := 2; emp_name := ada_name; emp_email := ada_email |} in
  In second [second] /\ option_label second = option_label first /\
  dict_get (employee_options ([] ++ first :: [second])) (option_label first)
    = Some 2.
Proof.
  intros first second.
  assert (Hin : In second [second]) by (left; reflexivity).
  assert (Hl : option_label second = option_label first) by reflexivity.
  split; [exact Hin |]. split; [exact Hl |].
  destruct (employee_options_shadowed [] [second] first second Hin Hl)
    as (later & Hlater & _ & Hget).
  destruct Hlater as [<- | []]. exact Hget.
Defined.

(** * The leave form: properties *)


Section LeaveFormProperties.

Variable strftime_Y_m_d : date -> pystr.
Variable service : leave_data -> json_reply.

(** X16. The form and the validator agree on the first two rules. Whenever
    [validate_leave_request] returns a result for the dates of the form, the
    form sends its POST exactly when that result carries neither the
    ordering message nor the past-date message; and when the form stops on
    a message, that message is the first one of the result. *)
Theorem apply_leave_submitted_agrees_with_validator
    (g : namespace) (today : date) (employee_id : Z) (leave_type : string)
    (start_date end_date : date) (reason : pystr) (r : ValidationResult) :
  validate_leave_request g today start_date end_date leave_type = Return r ->
  ((exists data,
      In (http_post "/leave-requests" data)
         (fst (apply_leave_submitted strftime_Y_m_d service today employee_id
                 leave_type start_date end_date reason))) <->
   ~ In msg_order (errors r) /\ ~ In msg_past (errors r)) /\
  (forall m,
     fst (apply_leave_submitted strftime_Y_m_d service today employee_id
            leave_type start_date end_date reason) = [st_error m] ->
     hd_error (errors r) = Some m).
Proof.
  intros Hr. apply validate_leave_request_errors in Hr as (_ & Herr & _).
  rewrite Herr. unfold spec_errors, apply_leave_submitted.
  rewrite Z.gtb_ltb, (Z.ltb_antisym start_date end_date),
    (Z.ltb_antisym today start_date).
  destruct (start_date <=? end_date), (today <=? start_date); cbn [negb fst].
  - split.
    + split.
      * intros _.
        destruct (py_in leave_type leave_types), (working_days r =? 0),
          (30 <? working_days r); cbn; split; intros Hin;
          repeat match goal with
                 | Hor : _ \/ _ |- _ => destruct Hor as [Hor | Hor]
                 | Heq : _ = _ :> string |- _ => discriminate Heq
                 | Hf : False |- _ => destruct Hf
                 end.
      * intros _.
        destruct (service _) as [response |]; [destruct (success response) |];
          eexists; left; reflexivity.
    + intros m Hm.
      destruct (service _) as [response |]; [destruct (success response) |];
        discriminate Hm.
  - split.
    + split.
      * intros (data & [Hin | []]). discriminate Hin.
      * intros (_ & Hno). exfalso. apply Hno. cbn. left. reflexivity.
    + intros m Hm. injection Hm as <-. reflexivity.
  - split.
    + split.
      * intros (data & [Hin | []]). discriminate Hin.
      * intros (Hno & _). exfalso. apply Hno. cbn. left. reflexivity.
    + intros m Hm. injection Hm as <-. reflexivity.
  - split.
    + split.
      * intros (data & [Hin | []]). discriminate Hin.
      * intros (Hno & _). exfalso. apply Hno. cbn. left. reflexivity.
    + intros m Hm. injection Hm as <-. reflexivity.
Qed.


End LeaveFormProperties.

Lemma apply_leave_submitted_agrees_with_validator_witness :
  let strftime := fun _ : date => @nil Z in
  let service := fun _ : leave_data =>
    json_object {| success := true; error := None; days_requested := None |} in
  let r := {| valid := false; errors := [msg_order; msg_none]; working_days := 0 |} in
  validate_leave_request utils_globals (ymd 2025 1 1)
    fri_2025_01_10 sun_2025_01_05 "annual" = Return r /\
  fst (apply_leave_submitted strftime service (ymd 2025 1 1) 7 "annual"
         fri_2025_01_10 sun_2025_01_05 []) = [st_error msg_order] /\
  hd_error (errors r) = Some msg_order.
Proof.
  intros strftime service r.
  assert (Hr : validate_leave_request utils_globals (ymd 2025 1 1)
                 fri_2025_01_10 sun_2025_01_05 "annual" = Return r) by reflexivity.
  split; [exact Hr |]. split; [reflexivity |].
  destruct (apply_leave_submitted_agrees_with_validator strftime service
              utils_globals (ymd 2025 1 1) 7 "annual"
              fri_2025_01_10 sun_2025_01_05 [] r Hr) as (_ & Hfirst).
  apply Hfirst. reflexivity.
Defined.

